(** * Library management backend: borrow / return / fine / payment workflow

    A shallow embedding of the Express handlers of the server file (stored
    in [src/backend/models/Transcation.js], after the Transaction schema)
    together with the three Mongoose schemas (Transaction, Book, Payment),
    and the properties of the workflow proved over it.

    Modelling conventions.
    - A JavaScript [Date] is its time value: an integer number of
      milliseconds since the epoch, a [Z].  [TimeClip] is written out, so a
      date computed out of the representable range is an invalid date
      ([None]).  Subtraction of dates and [Math.floor] of the quotient are
      the integer operations ([Z.div] rounds towards minus infinity).
    - The server's local time zone is a fixed offset [LocalTZA] (no daylight
      saving changes).
    - One request is served at one clock reading [now]: every [new Date()]
      and [Date.now()] of a handler yields that reading.
    - A collection is a finite map from document ids to documents; a new
      document receives an id that is fresh for its collection.  Nothing is
      ever deleted: the server has no route that removes a document.
    - A request body field that may be absent is an [option]; [days] and
      [amount] are integers, the other fields are strings.  A string is
      held as the bytes of its UTF-8 encoding.
    - A path keeps the type its schema declares.  [Book.available] is
      declared [Boolean]: the handlers compare it with [0], subtract [1]
      from it and [$inc] it, and the model spells out what each of the
      three does on a Boolean (number coercion, cast on assignment, and the
      store's [$inc], which is defined on numbers only).
    - A handler body is run from its first statement to its answer; [run]
      serves whole requests one after another.  The server itself lets
      handlers overlap at their [await]s; [borrow_resume] and [overlap]
      model that for the borrow route. *)

From stdpp Require Import gmap strings pretty sorting.
From Stdlib Require Import ZArith Lia.

Local Open Scope Z_scope.

(** ** ECMAScript time arithmetic (the part used by [getDate] / [setDate]) *)

Module JSDate.

Definition msPerDay : Z := 1000 * 60 * 60 * 24.

Definition maxTime : Z := 8640000000000000.

Definition Day (t : Z) : Z := t / msPerDay.

Definition TimeWithinDay (t : Z) : Z := t mod msPerDay.

Definition DaysInYear (y : Z) : Z :=
  if negb (y mod 4 =? 0) then 365
  else if negb (y mod 100 =? 0) then 366
  else if negb (y mod 400 =? 0) then 365
  else 366.

Definition DayFromYear (y : Z) : Z :=
  365 * (y - 1970) + (y - 1969) / 4 - (y - 1901) / 100 + (y - 1601) / 400.

(** The largest year [y] with [DayFromYear y <= Day t]: an estimate from the
    mean length of a Gregorian year, corrected by at most one year. *)
Definition YearFromTime (t : Z) : Z :=
  let d := Day t in
  let y := 1970 + (d * 400) / 146097 in
  if d <? DayFromYear y then y - 1
  else if DayFromYear (y + 1) <=? d then y + 1
  else y.

Definition InLeapYear (t : Z) : Z :=
  if DaysInYear (YearFromTime t) =? 366 then 1 else 0.

Definition DayWithinYear (t : Z) : Z := Day t - DayFromYear (YearFromTime t).

Definition MonthFromTime (t : Z) : Z :=
  let d := DayWithinYear t in
  let l := InLeapYear t in
  if d <? 31 then 0
  else if d <? 59 + l then 1
  else if d <? 90 + l then 2
  else if d <? 120 + l then 3
  else if d <? 151 + l then 4
  else if d <? 181 + l then 5
  else if d <? 212 + l then 6
  else if d <? 243 + l then 7
  else if d <? 273 + l then 8
  else if d <? 304 + l then 9
  else if d <? 334 + l then 10
  else 11.

(** Number of days of the year before the first day of month [m] (0..11). *)
Definition DaysBeforeMonth (m leap : Z) : Z :=
  if m =? 0 then 0
  else if m =? 1 then 31
  else if m =? 2 then 59 + leap
  else if m =? 3 then 90 + leap
  else if m =? 4 then 120 + leap
  else if m =? 5 then 151 + leap
  else if m =? 6 then 181 + leap
  else if m =? 7 then 212 + leap
  else if m =? 8 then 243 + leap
  else if m =? 9 then 273 + leap
  else if m =? 10 then 304 + leap
  else 334 + leap.

Definition DateFromTime (t : Z) : Z :=
  DayWithinYear t - DaysBeforeMonth (MonthFromTime t) (InLeapYear t) + 1.

(** [MakeDay year month date]: the day number of the first day of the month
    ([month] may lie outside 0..11 and then carries into the year), plus
    [date - 1]. *)
Definition MakeDay (year month date : Z) : Z :=
  let ym := year + month / 12 in
  let mn := month mod 12 in
  let leap := if DaysInYear ym =? 366 then 1 else 0 in
  DayFromYear ym + DaysBeforeMonth mn leap + date - 1.

Definition MakeDate (day time : Z) : Z := day * msPerDay + time.

Definition TimeClip (t : Z) : option Z :=
  if Z.abs t <=? maxTime then Some t else None.

Section LocalTime.

(** Offset of the server's local time from UTC, in milliseconds. *)
Variable LocalTZA : Z.

Definition LocalTime (t : Z) : Z := t + LocalTZA.

Definition UTC (t : Z) : Z := t - LocalTZA.

(** [d.getDate()]: day of the month, local time. *)
Definition getDate (t : Z) : Z := DateFromTime (LocalTime t).

(** [d.setDate(dt)]: the resulting time value of [d], an invalid date when
    it falls out of range. *)
Definition setDate (t dt : Z) : option Z :=
  let lt := LocalTime t in
  let newDate :=
    MakeDate (MakeDay (YearFromTime lt) (MonthFromTime lt) dt)
             (TimeWithinDay lt) in
  TimeClip (UTC newDate).

End LocalTime.

(** [Date.UTC(y, m, d)] for a calendar date at midnight ([m] is 1..12 here). *)
Definition utc_midnight (y m d : Z) : Z :=
  MakeDate (MakeDay y (m - 1) d) 0.

End JSDate.

(** ** JavaScript and driver primitives *)

(** [ToNumber] of a Boolean, as applied by [<=] and [-]. *)
Definition ToNumber (b : bool) : Z := if b then 1 else 0.

(** Truthiness of an optional string ([undefined] and the empty string are falsy). *)
Definition truthy (v : option string) : bool :=
  match v with
  | Some s => negb (String.eqb s EmptyString)
  | None => false
  end.

(** Strings are held as the bytes of their UTF-8 encoding.  The white
    space that [String.prototype.trim] strips is the ECMAScript WhiteSpace
    and LineTerminator code points: U+0009 to U+000D and U+0020 (one
    byte), U+00A0 (two bytes), and U+1680, U+2000 to U+200A, U+2028,
    U+2029, U+202F, U+205F, U+3000 and U+FEFF (three bytes). *)
Definition white_space_1 (c : N) : bool :=
  ((9 <=? c) && (c <=? 13) || (c =? 32))%N.

Definition white_space_2 (c d : N) : bool :=
  ((c =? 194) && (d =? 160))%N.

Definition white_space_3 (c d e : N) : bool :=
  ((c =? 225) && (d =? 154) && (e =? 128)
   || (c =? 226) && (d =? 128)
      && ((128 <=? e) && (e <=? 138) || (e =? 168) || (e =? 169)
          || (e =? 175))
   || (c =? 226) && (d =? 129) && (e =? 159)
   || (c =? 227) && (d =? 128) && (e =? 128)
   || (c =? 239) && (d =? 187) && (e =? 191))%N.

(** The number of bytes of the white space character that [s] starts
    with, [0] when it starts with none. *)
Definition white_space_length (s : string) : nat :=
  match s with
  | String a s1 =>
      let c := Ascii.N_of_ascii a in
      if white_space_1 c then 1%nat
      else
        match s1 with
        | String b s2 =>
            let d := Ascii.N_of_ascii b in
            if white_space_2 c d then 2%nat
            else
              match s2 with
              | String e _ =>
                  if white_space_3 c d (Ascii.N_of_ascii e) then 3%nat
                  else 0%nat
              | EmptyString => 0%nat
              end
        | EmptyString => 0%nat
        end
  | EmptyString => 0%nat
  end.

(** [s] is exactly one white space character. *)
Definition is_white_space (s : string) : bool :=
  negb (String.eqb s EmptyString)
  && Nat.eqb (white_space_length s) (String.length s).

(** [trimStart_from skip s]: [s] without its first [skip] bytes and the
    white space that follows them. *)
Fixpoint trimStart_from (skip : nat) (s : string) : string :=
  match s with
  | String a s' =>
      match skip with
      | S k => trimStart_from k s'
      | O =>
          match white_space_length s with
          | S k => trimStart_from k s'
          | O => s
          end
      end
  | EmptyString => EmptyString
  end.

Definition trimStart (s : string) : string := trimStart_from 0 s.

Fixpoint trimEnd (s : string) : string :=
  match s with
  | String a s' =>
      let r := String a (trimEnd s') in
      if is_white_space r then EmptyString else r
  | EmptyString => EmptyString
  end.

(** [String.prototype.trim]: white space removed at both ends. *)
Definition trim (s : string) : string := trimStart (trimEnd s).

(** What a handler's [catch] can receive. *)
Inductive Exn : Type :=
  | ValidationError (path : string)  (* a schema validator rejected the path *)
  | CastError (kind : string)        (* a value could not be cast to the path's type *)
  | DuplicateKey (index : string)    (* unique index violated on insert *)
  | TypeMismatch (path : string)     (* the store refused an update operator *)
  | TypeError (what : string).       (* property read on null *)

(** Values as the store sees them, for the two types met on [available]. *)
Inductive Value : Type :=
  | VBool (b : bool)
  | VNum (n : Z).

(** Mongoose's Boolean cast: [true], [1] become [true]; [false], [0] become
    [false]; any other number is a cast error. *)
Definition castBoolean (v : Value) : Exn + bool :=
  match v with
  | VBool b => inr b
  | VNum 1 => inr true
  | VNum 0 => inr false
  | VNum _ => inl (CastError "Boolean")
  end.

(** The store's [$inc], an arithmetic update operator: the sum when the
    stored field and the operand are both numbers; otherwise the write is
    refused with a type mismatch error (a Boolean is not a number for the
    store). *)
Definition mongo_inc (path : string) (stored operand : Value) : Exn + Value :=
  match stored, operand with
  | VNum a, VNum b => inr (VNum (a + b))
  | _, _ => inl (TypeMismatch path)
  end.

(** Mongoose's [required] validator on a String path: present and non-empty. *)
Definition required_string (path : string) (v : option string) : Exn + string :=
  match v with
  | Some s => if String.eqb s EmptyString then inl (ValidationError path) else inr s
  | None => inl (ValidationError path)
  end.

Definition required {A} (path : string) (v : option A) : Exn + A :=
  match v with
  | Some a => inr a
  | None => inl (ValidationError path)
  end.

(** ** The three schemas *)

Inductive Status : Type := borrowed | returned | overdue | returned_late.

Inductive PaymentStatus : Type := pending | completed | failed | cancelled.

Module Book.

Record doc : Type := {
  title : string;
  author : string;
  isbn : option string;
  genre : string;
  available : bool;
  addedDate : Z
}.

(** [new Book({title, author, isbn, genre})] as validated by [save]: the
    setters trim, the defaults fill [genre], [available] and [addedDate],
    and [required] rejects a title or author that is absent or empty once
    trimmed. *)
Definition create (now : Z) (title author isbn genre : option string) : Exn + doc :=
  match required_string "title" (trim <$> title) with
  | inl e => inl e
  | inr t =>
      match required_string "author" (trim <$> author) with
      | inl e => inl e
      | inr a =>
          inr {| title := t; author := a; isbn := trim <$> isbn;
                 genre := default "General" (trim <$> genre);
                 available := true; addedDate := now |}
      end
  end.

(** The unique sparse index on [isbn]: does a stored book carry it already? *)
Definition isbn_taken (i : option string) (coll : gmap positive doc) : bool :=
  match i with
  | Some s =>
      existsb (fun kv => match isbn (snd kv) with
                         | Some s' => String.eqb s s'
                         | None => false
                         end) (map_to_list coll)
  | None => false
  end.

Definition set_available (b : doc) (v : bool) : doc :=
  {| title := title b; author := author b; isbn := isbn b; genre := genre b;
     available := v; addedDate := addedDate b |}.

End Book.

Module Transaction.

Record student_info : Type := {
  studentId : string;
  name : string;
  department : string
}.

Record doc : Type := {
  book : positive;
  student : student_info;
  borrowDate : Z;
  dueDate : Z;
  returnDate : option Z;
  status : Status;
  fineAmount : Z;
  finePaid : bool;
  finePaidDate : option Z;
  daysLate : Z;
  createdDate : Z
}.

(** [new Transaction({book, student, borrowDate, dueDate})] as validated by
    [save]: the three student fields and [dueDate] are required (an invalid
    date does not cast), the other paths take their defaults. *)
Definition create (now : Z) (bookId : positive)
    (studentId name department : option string)
    (borrowDate : Z) (dueDate : option Z) : Exn + doc :=
  match required_string "student.studentId" studentId with
  | inl e => inl e
  | inr sid =>
      match required_string "student.name" name with
      | inl e => inl e
      | inr nm =>
          match required_string "student.department" department with
          | inl e => inl e
          | inr dp =>
              match dueDate with
              | None => inl (CastError "date")
              | Some due =>
                  inr {| book := bookId;
                         student := {| studentId := sid; name := nm;
                                       department := dp |};
                         borrowDate := borrowDate; dueDate := due;
                         returnDate := None; status := borrowed;
                         fineAmount := 0; finePaid := false;
                         finePaidDate := None; daysLate := 0;
                         createdDate := now |}
              end
          end
      end
  end.

(** The four assignments of the return handler. *)
Definition set_returned (t : doc) (rd : Z) (dl fine : Z) (st : Status) : doc :=
  {| book := book t; student := student t; borrowDate := borrowDate t;
     dueDate := dueDate t; returnDate := Some rd; status := st;
     fineAmount := fine; finePaid := finePaid t;
     finePaidDate := finePaidDate t; daysLate := dl;
     createdDate := createdDate t |}.

(** [finePaid = true; finePaidDate = d]. *)
Definition set_finePaid (t : doc) (d : Z) : doc :=
  {| book := book t; student := student t; borrowDate := borrowDate t;
     dueDate := dueDate t; returnDate := returnDate t; status := status t;
     fineAmount := fineAmount t; finePaid := true;
     finePaidDate := Some d; daysLate := daysLate t;
     createdDate := createdDate t |}.

End Transaction.

Module Payment.

Record doc : Type := {
  transactionId : positive;
  studentId : string;
  studentName : string;
  amount : Z;
  upiId : string;
  paymentStatus : PaymentStatus;
  paymentMethod : string;
  utrNumber : option string;
  paymentDate : option Z;
  createdDate : Z
}.

(** [new Payment({transactionId, studentId, studentName, amount, upiId})] as
    validated by [save]. *)
Definition create (now : Z) (transactionId : positive)
    (studentId studentName : option string) (amount : option Z)
    (upiId : string) : Exn + doc :=
  match required_string "studentId" studentId with
  | inl e => inl e
  | inr sid =>
      match required_string "studentName" studentName with
      | inl e => inl e
      | inr nm =>
          match required "amount" amount with
          | inl e => inl e
          | inr amt =>
              inr {| transactionId := transactionId; studentId := sid;
                     studentName := nm; amount := amt; upiId := upiId;
                     paymentStatus := pending; paymentMethod := "UPI";
                     utrNumber := None; paymentDate := None;
                     createdDate := now |}
          end
      end
  end.

(** The three assignments of the verify handler. *)
Definition set_verified (p : doc) (utr : string) (d : Z) : doc :=
  {| transactionId := transactionId p; studentId := studentId p;
     studentName := studentName p; amount := amount p; upiId := upiId p;
     paymentStatus := completed; paymentMethod := paymentMethod p;
     utrNumber := Some utr; paymentDate := Some d;
     createdDate := createdDate p |}.

End Payment.

(** ** Server state, requests and responses *)

Record State : Type := {
  books : gmap positive Book.doc;
  transactions : gmap positive Transaction.doc;
  payments : gmap positive Payment.doc;
  isDBConnected : bool
}.

Definition with_books (f : gmap positive Book.doc -> gmap positive Book.doc)
    (s : State) : State :=
  {| books := f (books s); transactions := transactions s;
     payments := payments s; isDBConnected := isDBConnected s |}.

Definition with_transactions
    (f : gmap positive Transaction.doc -> gmap positive Transaction.doc)
    (s : State) : State :=
  {| books := books s; transactions := f (transactions s);
     payments := payments s; isDBConnected := isDBConnected s |}.

Definition with_payments
    (f : gmap positive Payment.doc -> gmap positive Payment.doc)
    (s : State) : State :=
  {| books := books s; transactions := transactions s;
     payments := f (payments s); isDBConnected := isDBConnected s |}.

Definition with_connected (b : bool) (s : State) : State :=
  {| books := books s; transactions := transactions s;
     payments := payments s; isDBConnected := b |}.

(** JSON bodies of the responses. *)
Inductive Body : Type :=
  | JsonError (error : string)
      (* { success: false, error } written by the handler itself *)
  | JsonCaught (e : Exn)
      (* { success: false, error: error.message } written by [catch] *)
  | JsonTransaction (message : string) (id : positive)
      (transaction : Transaction.doc) (populated : option Book.doc)
  | JsonPaymentProjection (id : positive) (amount : Z) (upiId : string)
      (status : PaymentStatus)
  | JsonPayment (message : string) (id : positive) (payment : Payment.doc)
  | JsonBook (message : string) (id : positive) (book : Book.doc).

Record Response : Type := { code : Z; body : Body }.

Module BorrowBody.
Record t : Type := {
  bookId : positive;
  studentId : option string;
  studentName : option string;
  studentDepartment : option string;
  days : option Z
}.
End BorrowBody.

Module CreateUpiBody.
Record t : Type := {
  transactionId : positive;
  studentId : option string;
  studentName : option string;
  amount : option Z
}.
End CreateUpiBody.

Module VerifyBody.
Record t : Type := {
  paymentId : positive;
  utrNumber : option string
}.
End VerifyBody.

Module BookBody.
Record t : Type := {
  title : option string;
  author : option string;
  isbn : option string;
  genre : option string
}.
End BookBody.

(** ** Handler bodies: state passing with exceptions

    A computation may change the stored collections and then throw; what it
    wrote before the exception stays written (no call is transactional). *)

Definition M (A : Type) : Type := State -> State * (Exn + A).

Definition ret {A} (a : A) : M A := fun s => (s, inr a).

Definition throw {A} (e : Exn) : M A := fun s => (s, inl e).

Definition bind {A B} (m : M A) (k : A -> M B) : M B :=
  fun s =>
    match m s with
    | (s', inl e) => (s', inl e)
    | (s', inr a) => k a s'
    end.

Notation "x <- m ;; k" := (bind m (fun x => k))
  (at level 100, m at next level, right associativity).
Notation "m ;;; k" := (bind m (fun _ => k))
  (at level 100, right associativity).

Definition lift {A} (r : Exn + A) : M A :=
  match r with
  | inl e => throw e
  | inr a => ret a
  end.

Definition gets {A} (f : State -> A) : M A := fun s => (s, inr (f s)).

Definition modify (f : State -> State) : M unit := fun s => (f s, inr tt).

Definition respond (c : Z) (b : Body) : M Response :=
  ret {| code := c; body := b |}.

(** [try { ... } catch (error) { res.status(500).json(...) }]. *)
Definition try_catch (m : M Response) (s : State) : State * Response :=
  match m s with
  | (s', inr r) => (s', r)
  | (s', inl e) => (s', {| code := 500; body := JsonCaught e |})
  end.

(** *** Model calls *)

Definition Book_findById (id : positive) : M (option Book.doc) :=
  gets (fun s => books s !! id).

Definition Transaction_findById (id : positive) : M (option Transaction.doc) :=
  gets (fun s => transactions s !! id).

Definition Payment_findById (id : positive) : M (option Payment.doc) :=
  gets (fun s => payments s !! id).

(** [await doc.save()] of a new document: validation, then insertion under a
    fresh id. *)
Definition Transaction_insert (d : Exn + Transaction.doc)
    : M (positive * Transaction.doc) :=
  t <- lift d ;;
  id <- gets (fun s => fresh (dom (transactions s))) ;;
  modify (with_transactions (insert id t)) ;;;
  ret (id, t).

Definition Payment_insert (d : Exn + Payment.doc)
    : M (positive * Payment.doc) :=
  p <- lift d ;;
  id <- gets (fun s => fresh (dom (payments s))) ;;
  modify (with_payments (insert id p)) ;;;
  ret (id, p).

Definition Book_insert (d : Exn + Book.doc) : M (positive * Book.doc) :=
  b <- lift d ;;
  taken <- gets (fun s => Book.isbn_taken (Book.isbn b) (books s)) ;;
  if (taken : bool) then throw (DuplicateKey "isbn")
  else
    id <- gets (fun s => fresh (dom (books s))) ;;
    modify (with_books (insert id b)) ;;;
    ret (id, b).

(** [await doc.save()] of a document read from the store. *)
Definition Transaction_save (id : positive) (t : Transaction.doc) : M unit :=
  modify (with_transactions (insert id t)).

Definition Payment_save (id : positive) (p : Payment.doc) : M unit :=
  modify (with_payments (insert id p)).

Definition Book_save (id : positive) (b : Book.doc) : M unit :=
  modify (with_books (insert id b)).

(** [book.available -= 1]: the difference is a Number, which the Boolean
    path casts back on assignment. *)
Definition Book_available_minus (b : Book.doc) (n : Z) : M Book.doc :=
  v <- lift (castBoolean (VNum (ToNumber (Book.available b) - n))) ;;
  ret (Book.set_available b v).

(** [Book.findByIdAndUpdate(id, { $inc: { available: n } })].  Mongoose
    casts the operand of [$inc] with the schema type of the path, here
    Boolean; the store then applies [$inc] to the stored value, a Boolean
    as well, and what it answers is written back through the same cast.
    A missing document is not an error. *)
Definition Book_findByIdAndUpdate_inc_available (id : positive) (n : Z)
    : M unit :=
  operand <- lift (castBoolean (VNum n)) ;;
  found <- Book_findById id ;;
  match found with
  | None => ret tt
  | Some b =>
      v <- lift (mongo_inc "available" (VBool (Book.available b))
                           (VBool operand)) ;;
      a <- lift (castBoolean v) ;;
      Book_save id (Book.set_available b a)
  end.

(** [Transaction.findByIdAndUpdate(id, { finePaid: true, finePaidDate })]. *)
Definition Transaction_findByIdAndUpdate_finePaid (id : positive) (d : Z)
    : M unit :=
  found <- Transaction_findById id ;;
  match found with
  | None => ret tt
  | Some t => Transaction_save id (Transaction.set_finePaid t d)
  end.

(** ** The handlers *)

Section Handlers.

(** Offset of the server's local time zone, in milliseconds. *)
Variable LocalTZA : Z.

(** [POST /api/transactions/borrow] (server file, lines 111-153). *)
Definition post_transactions_borrow (now : Z) (req : BorrowBody.t)
    : State -> State * Response :=
  try_catch (
    let bookId := BorrowBody.bookId req in
    let days := default 14 (BorrowBody.days req) in
    book <- Book_findById bookId ;;
    match book with
    | None => respond 404 (JsonError "Book not found")
    | Some book =>
        if ToNumber (Book.available book) <=? 0
        then respond 400 (JsonError "Book not available")
        else
          let borrowDate := now in
          let dueDate :=
            JSDate.setDate LocalTZA now
              (JSDate.getDate LocalTZA borrowDate + days) in
          tx <- Transaction_insert
                  (Transaction.create now bookId
                     (BorrowBody.studentId req) (BorrowBody.studentName req)
                     (BorrowBody.studentDepartment req) borrowDate dueDate) ;;
          book' <- Book_available_minus book 1 ;;
          Book_save bookId book' ;;;
          populated <- Book_findById (Transaction.book (snd tx)) ;;
          respond 200
            (JsonTransaction "Book issued successfully" (fst tx) (snd tx)
               populated)
    end).

(** [POST /api/transactions/return/:id] (lines 156-188).  The book of
    the transaction is read with it ([populate]). *)
Definition post_transactions_return (now : Z) (id : positive)
    : State -> State * Response :=
  try_catch (
    transaction <- Transaction_findById id ;;
    match transaction with
    | None => respond 404 (JsonError "Transaction not found")
    | Some t =>
        populated <- Book_findById (Transaction.book t) ;;
        let returnDate := now in
        let dueDate := Transaction.dueDate t in
        let daysLate :=
          Z.max 0 ((returnDate - dueDate) / (1000 * 60 * 60 * 24)) in
        let fineAmount := daysLate * 5 in
        let t' :=
          Transaction.set_returned t returnDate daysLate fineAmount
            (if 0 <? daysLate then returned_late else returned) in
        Transaction_save id t' ;;;
        match populated with
        | None => throw (TypeError "transaction.book")
        | Some _ =>
            Book_findByIdAndUpdate_inc_available (Transaction.book t) 1
        end ;;;
        respond 200
          (JsonTransaction
             ("Book returned successfully" +:+
              (if 0 <? fineAmount
               then " (Fine: ₹" +:+ pretty fineAmount +:+ ")"
               else EmptyString))
             id t' populated)
    end).

(** [POST /api/payments/create-upi] (lines 191-223). *)
Definition post_payments_create_upi (now : Z) (req : CreateUpiBody.t)
    : State -> State * Response :=
  try_catch (
    let transactionId := CreateUpiBody.transactionId req in
    transaction <- Transaction_findById transactionId ;;
    match transaction with
    | None => respond 404 (JsonError "Transaction not found")
    | Some _ =>
        p <- Payment_insert
               (Payment.create now transactionId
                  (CreateUpiBody.studentId req)
                  (CreateUpiBody.studentName req)
                  (CreateUpiBody.amount req) "raitlibrary@axisbank") ;;
        respond 200
          (JsonPaymentProjection (fst p) (Payment.amount (snd p))
             (Payment.upiId (snd p)) (Payment.paymentStatus (snd p)))
    end).

(** [POST /api/payments/verify] (lines 226-255). *)
Definition post_payments_verify (now : Z) (req : VerifyBody.t)
    : State -> State * Response :=
  try_catch (
    let paymentId := VerifyBody.paymentId req in
    payment <- Payment_findById paymentId ;;
    match payment with
    | None => respond 404 (JsonError "Payment not found")
    | Some p =>
        let utr :=
          if truthy (VerifyBody.utrNumber req)
          then default EmptyString (VerifyBody.utrNumber req)
          else "UTR" +:+ pretty now in
        let p' := Payment.set_verified p utr now in
        Payment_save paymentId p' ;;;
        Transaction_findByIdAndUpdate_finePaid (Payment.transactionId p') now ;;;
        respond 200 (JsonPayment "Payment verified successfully!" paymentId p')
    end).

(** [PUT /api/transactions/:id/pay-fine] (lines 258-277). *)
Definition put_transactions_pay_fine (now : Z) (id : positive)
    : State -> State * Response :=
  try_catch (
    transaction <- Transaction_findById id ;;
    match transaction with
    | None => respond 404 (JsonError "Transaction not found")
    | Some t =>
        let t' := Transaction.set_finePaid t now in
        Transaction_save id t' ;;;
        respond 200
          (JsonTransaction "Fine payment recorded successfully!" id t' None)
    end).

(** [POST /api/books] (lines 312-347): the connection test comes before
    the [try]. *)
Definition post_books (now : Z) (req : BookBody.t)
    : State -> State * Response :=
  fun s =>
    if negb (isDBConnected s)
    then (s, {| code := 503;
                body := JsonError "Database connecting, please try again" |})
    else
      try_catch (
        if negb (truthy (BookBody.title req))
           || negb (truthy (BookBody.author req))
        then respond 400 (JsonError "Title and author are required")
        else
          newBook <- Book_insert
                       (Book.create now (BookBody.title req)
                          (BookBody.author req) (BookBody.isbn req)
                          (BookBody.genre req)) ;;
          respond 201
            (JsonBook "Book added successfully!" (fst newBook) (snd newBook))
      ) s.

(** *** The server as a transition system *)

(** The requests and connection events that can change the state (the
    [GET] routes only read it). *)
Inductive Request : Type :=
  | PostBook (req : BookBody.t)
  | Borrow (req : BorrowBody.t)
  | Return (id : positive)
  | CreateUpi (req : CreateUpiBody.t)
  | Verify (req : VerifyBody.t)
  | PayFine (id : positive)
  | Connected
  | ConnectionError.

(** One step: the request arrives at clock reading [now]. *)
Definition step (s : State) (ev : Z * Request) : State :=
  let now := fst ev in
  match snd ev with
  | PostBook req => fst (post_books now req s)
  | Borrow req => fst (post_transactions_borrow now req s)
  | Return id => fst (post_transactions_return now id s)
  | CreateUpi req => fst (post_payments_create_upi now req s)
  | Verify req => fst (post_payments_verify now req s)
  | PayFine id => fst (put_transactions_pay_fine now id s)
  | Connected => with_connected true s
  | ConnectionError => with_connected false s
  end.

(** Serial service: the requests are served one after another, each to
    its answer before the next one starts.  (Handlers that overlap at
    their [await]s are modelled separately, for the borrow route, by
    [overlap].) *)
Definition run (s : State) (evs : list (Z * Request)) : State :=
  foldl step s evs.

Definition is_return (ev : Z * Request) : bool :=
  match snd ev with
  | Return _ => true
  | _ => false
  end.

End Handlers.

(** ** Vocabulary of the statements *)

(** A time value that a [Date] can hold. *)
Definition representable (t : Z) : Prop := Z.abs t <= JSDate.maxTime.

(** The loan period of a borrow request: [days = 14] by default. *)
Definition loan_days (req : BorrowBody.t) : Z := default 14 (BorrowBody.days req).

(** The student fields pass the schema's [required] validators, and the due
    date is one a [Date] can hold. *)
Definition valid_borrow_body (now : Z) (req : BorrowBody.t) : Prop :=
  truthy (BorrowBody.studentId req) = true /\
  truthy (BorrowBody.studentName req) = true /\
  truthy (BorrowBody.studentDepartment req) = true /\
  representable (now + loan_days req * JSDate.msPerDay).

(** The payment fields pass the schema's [required] validators. *)
Definition valid_payment_body (req : CreateUpiBody.t) : Prop :=
  truthy (CreateUpiBody.studentId req) = true /\
  truthy (CreateUpiBody.studentName req) = true /\
  is_Some (CreateUpiBody.amount req).

(** Transaction [id] is an outstanding loan of book [b]. *)
Definition outstanding (s : State) (b id : positive) : Prop :=
  exists t, transactions s !! id = Some t /\
            Transaction.book t = b /\ Transaction.status t = borrowed.

Definition at_most_one_loan (s : State) : Prop :=
  forall b i j, outstanding s b i -> outstanding s b j -> i = j.

(** Every transaction names a stored book that is flagged unavailable, and
    no two transactions name the same book. *)
Definition ledger_inv (s : State) : Prop :=
  (forall i t, transactions s !! i = Some t ->
     exists b, books s !! Transaction.book t = Some b /\
               Book.available b = false) /\
  (forall i j ti tj, transactions s !! i = Some ti ->
     transactions s !! j = Some tj ->
     Transaction.book ti = Transaction.book tj -> i = j).

(** How each handler can change the books and the transactions. *)
Inductive change (s s' : State) : Prop :=
  | change_none :
      books s' = books s -> transactions s' = transactions s -> change s s'
  | change_new_book id bk :
      books s !! id = None ->
      books s' = <[id := bk]> (books s) ->
      transactions s' = transactions s -> change s s'
  | change_loan id t b :
      transactions s !! id = None ->
      books s !! Transaction.book t = Some b ->
      Book.available b = true ->
      books s' = <[Transaction.book t := Book.set_available b false]> (books s) ->
      transactions s' = <[id := t]> (transactions s) -> change s s'
  | change_transaction id t t' :
      transactions s !! id = Some t ->
      Transaction.book t' = Transaction.book t ->
      books s' = books s ->
      transactions s' = <[id := t']> (transactions s) -> change s s'.

(** A title or author that is absent or blank once trimmed. *)
Definition missing (v : option string) : Prop :=
  truthy (trim <$> v) = false.

(** ** A small ledger used to instantiate the statements *)

Definition example_book : Book.doc :=
  {| Book.title := "SICP"; Book.author := "Abelson"; Book.isbn := None;
     Book.genre := "General"; Book.available := false; Book.addedDate := 0 |}.

Definition example_loan : Transaction.doc :=
  {| Transaction.book := 1%positive;
     Transaction.student :=
       {| Transaction.studentId := "S1"; Transaction.name := "Asha";
          Transaction.department := "CS" |};
     Transaction.borrowDate := JSDate.utc_midnight 2023 12 27;
     Transaction.dueDate := JSDate.utc_midnight 2024 1 10;
     Transaction.returnDate := None; Transaction.status := borrowed;
     Transaction.fineAmount := 0; Transaction.finePaid := false;
     Transaction.finePaidDate := None; Transaction.daysLate := 0;
     Transaction.createdDate := JSDate.utc_midnight 2023 12 27 |}.

Definition example_state : State :=
  {| books := {[ 1%positive := example_book ]};
     transactions := {[ 1%positive := example_loan ]};
     payments := ∅; isDBConnected := true |}.

(** The same shelf before the loan: no transaction, the book available. *)
Definition example_shelf : State :=
  {| books := {[ 1%positive := Book.set_available example_book true ]};
     transactions := ∅; payments := ∅; isDBConnected := true |}.

Definition example_request : BorrowBody.t :=
  {| BorrowBody.bookId := 1%positive;
     BorrowBody.studentId := Some "S1";
     BorrowBody.studentName := Some "Asha";
     BorrowBody.studentDepartment := Some "CS";
     BorrowBody.days := None |}.

(** A pending payment of 1 unit against the loan, and its verification
    without a UTR number. *)
Definition example_payment : Payment.doc :=
  {| Payment.transactionId := 1%positive; Payment.studentId := "S1";
     Payment.studentName := "Asha"; Payment.amount := 1;
     Payment.upiId := "raitlibrary@axisbank";
     Payment.paymentStatus := pending; Payment.paymentMethod := "UPI";
     Payment.utrNumber := None; Payment.paymentDate := None;
     Payment.createdDate := 1705276800000 |}.

Definition example_billed : State :=
  with_payments (insert 1%positive example_payment) example_state.

Definition example_verify : VerifyBody.t :=
  {| VerifyBody.paymentId := 1%positive; VerifyBody.utrNumber := None |}.

(** A payment request of 25 units against the loan, whose fine is 0. *)
Definition example_bill : CreateUpiBody.t :=
  {| CreateUpiBody.transactionId := 1%positive;
     CreateUpiBody.studentId := Some "S1";
     CreateUpiBody.studentName := Some "Asha";
     CreateUpiBody.amount := Some 25 |}.

(** Book requests: one without a title, one whose title is only spaces. *)
Definition example_untitled_book : BookBody.t :=
  {| BookBody.title := None; BookBody.author := Some "Abelson";
     BookBody.isbn := None; BookBody.genre := None |}.

Definition example_blank_book : BookBody.t :=
  {| BookBody.title := Some "   "; BookBody.author := Some "Abelson";
     BookBody.isbn := None; BookBody.genre := None |}.

(** ** The read-only routes *)

(** JSON bodies of the two listing routes. *)
Inductive ListBody : Type :=
  | ListError (error : string)
  | ListBooks (count : Z) (books : list (positive * Book.doc))
  | ListTransactions
      (transactions : list (positive * Transaction.doc * option Book.doc)).

Record ListResponse : Type := { list_code : Z; list_body : ListBody }.

(** [GET /api/books] (lines 291-309): [Book.find()] yields the stored
    books, [count] is the length of that array. *)
Definition get_books (s : State) : ListResponse :=
  if negb (isDBConnected s)
  then {| list_code := 503;
          list_body := ListError "Database connecting, please try again" |}
  else
    let books := map_to_list (books s) in
    {| list_code := 200;
       list_body := ListBooks (Z.of_nat (length books)) books |}.

(** The order of [sort({ createdDate: -1 })]: newest first. *)
Definition newer_first (x y : positive * Transaction.doc) : Prop :=
  Transaction.createdDate (snd y) <= Transaction.createdDate (snd x).

Global Instance newer_first_dec x y : Decision (newer_first x y).
Proof. unfold newer_first. apply _. Defined.

(** [GET /api/transactions] (lines 101-108):
    [Transaction.find().populate('book').sort({ createdDate: -1 })]. *)
Definition get_transactions (s : State) : ListResponse :=
  let sorted := merge_sort newer_first (map_to_list (transactions s)) in
  {| list_code := 200;
     list_body :=
       ListTransactions
         (map (fun it => (it, books s !! Transaction.book (snd it))) sorted) |}.

(** ** Vocabulary of the further statements *)

(** [s] starts with a white space character. *)
Definition white_space_first (s : string) : bool :=
  negb (Nat.eqb (white_space_length s) 0).

(** [s] ends with a white space character. *)
Fixpoint white_space_last (s : string) : bool :=
  match s with
  | String a s' => is_white_space s || white_space_last s'
  | EmptyString => false
  end.

(** Non-empty, with no white space at either end. *)
Definition normalized (s : string) : Prop :=
  s <> EmptyString /\
  white_space_first s = false /\ white_space_last s = false.

(** The number of days late and the fine that a return at [now] computes
    for due date [due]. *)
Definition days_late (now due : Z) : Z := Z.max 0 ((now - due) / 86400000).

Definition fine (now due : Z) : Z := days_late now due * 5.

(** The document that a return at [now] writes over [t]. *)
Definition returned_doc (now : Z) (t : Transaction.doc) : Transaction.doc :=
  Transaction.set_returned t now
    (days_late now (Transaction.dueDate t))
    (fine now (Transaction.dueDate t))
    (if 0 <? days_late now (Transaction.dueDate t)
     then returned_late else returned).

(** The three collections of two states coincide (the connection flag may
    differ). *)
Definition same_data (s s' : State) : Prop :=
  books s' = books s /\ transactions s' = transactions s /\
  payments s' = payments s.

(** What serving one request or connection event can do to the stored
    data. *)
Inductive effect (s s' : State) : Prop :=
  | effect_none : same_data s s' -> effect s s'
  | effect_book id bk now title author isbn genre :
      books s !! id = None ->
      Book.create now title author isbn genre = inr bk ->
      Book.isbn_taken (Book.isbn bk) (books s) = false ->
      books s' = <[id := bk]> (books s) ->
      transactions s' = transactions s ->
      payments s' = payments s -> effect s s'
  | effect_loan id t b now sid nm dp due :
      transactions s !! id = None ->
      books s !! Transaction.book t = Some b ->
      Book.available b = true ->
      Transaction.create now (Transaction.book t) sid nm dp now due = inr t ->
      books s' = <[Transaction.book t := Book.set_available b false]> (books s) ->
      transactions s' = <[id := t]> (transactions s) ->
      payments s' = payments s -> effect s s'
  | effect_return id t now :
      transactions s !! id = Some t ->
      books s' = books s ->
      transactions s' = <[id := returned_doc now t]> (transactions s) ->
      payments s' = payments s -> effect s s'
  | effect_fine_paid id t now :
      transactions s !! id = Some t ->
      books s' = books s ->
      transactions s' = <[id := Transaction.set_finePaid t now]> (transactions s) ->
      payments s' = payments s -> effect s s'
  | effect_payment id p now sid nm amt :
      payments s !! id = None ->
      is_Some (transactions s !! Payment.transactionId p) ->
      Payment.create now (Payment.transactionId p) sid nm amt
        "raitlibrary@axisbank" = inr p ->
      books s' = books s ->
      transactions s' = transactions s ->
      payments s' = <[id := p]> (payments s) -> effect s s'
  | effect_verify id p utr now :
      payments s !! id = Some p ->
      books s' = books s ->
      payments s' = <[id := Payment.set_verified p utr now]> (payments s) ->
      (transactions s !! Payment.transactionId p = None /\
       transactions s' = transactions s) \/
      (exists t, transactions s !! Payment.transactionId p = Some t /\
                 transactions s'
                 = <[Payment.transactionId p := Transaction.set_finePaid t now]>
                     (transactions s)) ->
      effect s s'.

(** Every transaction names a stored book and every payment names a stored
    transaction. *)
Definition references_ok (s : State) : Prop :=
  (forall i t, transactions s !! i = Some t ->
     is_Some (books s !! Transaction.book t)) /\
  (forall i p, payments s !! i = Some p ->
     is_Some (transactions s !! Payment.transactionId p)).

(** No two stored books carry the same ISBN. *)
Definition isbn_unique (s : State) : Prop :=
  forall i j bi bj x,
    books s !! i = Some bi -> books s !! j = Some bj ->
    Book.isbn bi = Some x -> Book.isbn bj = Some x -> i = j.

(** The accounting of one transaction: the fine is five units per day late,
    a loan that was not returned carries no return date and no fine, a
    returned one is late exactly when it has days late. *)
Definition accounted (t : Transaction.doc) : Prop :=
  0 <= Transaction.daysLate t /\
  Transaction.fineAmount t = Transaction.daysLate t * 5 /\
  match Transaction.status t with
  | borrowed => Transaction.returnDate t = None /\ Transaction.daysLate t = 0
  | returned => is_Some (Transaction.returnDate t) /\ Transaction.daysLate t = 0
  | returned_late =>
      is_Some (Transaction.returnDate t) /\ 0 < Transaction.daysLate t
  | overdue => False
  end.

Definition ledger_accounted (s : State) : Prop :=
  forall i t, transactions s !! i = Some t -> accounted t.

(** The payment statuses that the routes produce. *)
Definition payments_open_or_done (s : State) : Prop :=
  forall i p, payments s !! i = Some p ->
    Payment.paymentStatus p = pending \/ Payment.paymentStatus p = completed.

(** ** Further data for instantiating the statements *)

Definition example_new_book : BookBody.t :=
  {| BookBody.title := Some "  Types and Programming Languages ";
     BookBody.author := Some "Pierce "; BookBody.isbn := Some " 0262162091";
     BookBody.genre := None |}.

Definition example_isbn_book : Book.doc :=
  {| Book.title := "TAPL"; Book.author := "Pierce";
     Book.isbn := Some "0262162091"; Book.genre := "General";
     Book.available := true; Book.addedDate := 0 |}.

Definition example_catalogue : State :=
  with_books (insert 2%positive example_isbn_book) example_state.

Definition example_backdated_request : BorrowBody.t :=
  {| BorrowBody.bookId := 1%positive;
     BorrowBody.studentId := Some "S1";
     BorrowBody.studentName := Some "Asha";
     BorrowBody.studentDepartment := Some "CS";
     BorrowBody.days := Some (-3) |}.

(** A server that has just started on an empty database. *)
Definition empty_library : State :=
  {| books := ∅; transactions := ∅; payments := ∅; isDBConnected := true |}.

(** A day at the library: a book is added, lent, returned late, billed and
    the payment verified. *)
Definition example_day : list (Z * Request) :=
  [(JSDate.utc_midnight 2024 1 1, PostBook example_new_book);
   (JSDate.utc_midnight 2024 1 2, Borrow example_request);
   (JSDate.utc_midnight 2024 1 20, Return 1%positive);
   (JSDate.utc_midnight 2024 1 21, CreateUpi example_bill);
   (JSDate.utc_midnight 2024 1 22, Verify example_verify);
   (JSDate.utc_midnight 2024 1 23, PostBook example_new_book)].

(** A handler body that neither reads nor writes the connection flag: run
    from a state with another flag, it does the same and leaves that
    flag. *)
Definition flag_blind {A} (m : M A) : Prop :=
  forall c s, m (with_connected c s)
              = (with_connected c (fst (m s)), snd (m s)).

(** ** Borrow requests that overlap

    A handler gives up control at each [await], and another request can
    then be served.  The borrow handler (lines 111-153) awaits four store
    operations: [Book.findById], [transaction.save()], [book.save()] and
    [transaction.populate('book')].  A borrow call in flight is at one of
    them, holding its local variables. *)
Inductive BorrowStage : Type :=
  | AtFindById
  | AtTransactionSave (book : Book.doc) (transaction : Transaction.doc)
  | AtBookSave (id : positive) (transaction : Transaction.doc)
      (book : Book.doc)
  | AtPopulate (id : positive) (transaction : Transaction.doc)
  | Answered (r : Response).

Section Overlap.

Variable LocalTZA : Z.

(** The awaited operation takes effect on the store, and the handler runs
    on to its next [await] or to its answer. *)
Definition borrow_resume (now : Z) (req : BorrowBody.t)
    (stage : BorrowStage) (s : State) : State * BorrowStage :=
  let bookId := BorrowBody.bookId req in
  let days := default 14 (BorrowBody.days req) in
  match stage with
  | AtFindById =>
      match books s !! bookId with
      | None =>
          (s, Answered {| code := 404; body := JsonError "Book not found" |})
      | Some book =>
          if ToNumber (Book.available book) <=? 0
          then (s, Answered {| code := 400;
                               body := JsonError "Book not available" |})
          else
            let borrowDate := now in
            let dueDate :=
              JSDate.setDate LocalTZA now
                (JSDate.getDate LocalTZA borrowDate + days) in
            match Transaction.create now bookId
                    (BorrowBody.studentId req) (BorrowBody.studentName req)
                    (BorrowBody.studentDepartment req) borrowDate dueDate with
            | inl e => (s, Answered {| code := 500; body := JsonCaught e |})
            | inr transaction => (s, AtTransactionSave book transaction)
            end
      end
  | AtTransactionSave book transaction =>
      let id := fresh (dom (transactions s)) in
      let s1 := with_transactions (insert id transaction) s in
      match castBoolean (VNum (ToNumber (Book.available book) - 1)) with
      | inl e => (s1, Answered {| code := 500; body := JsonCaught e |})
      | inr v => (s1, AtBookSave id transaction (Book.set_available book v))
      end
  | AtBookSave id transaction book =>
      (with_books (insert bookId book) s, AtPopulate id transaction)
  | AtPopulate id transaction =>
      (s, Answered
            {| code := 200;
               body := JsonTransaction "Book issued successfully" id
                         transaction
                         (books s !! Transaction.book transaction) |})
  | Answered r => (s, Answered r)
  end.

(** A borrow call served without interruption: its four resumptions in a
    row. *)
Definition borrow_alone (now : Z) (req : BorrowBody.t) (s : State)
    : State * BorrowStage :=
  let r1 := borrow_resume now req AtFindById s in
  let r2 := borrow_resume now req (snd r1) (fst r1) in
  let r3 := borrow_resume now req (snd r2) (fst r2) in
  borrow_resume now req (snd r3) (fst r3).

(** Two borrow calls in flight; the schedule tells, step by step, which of
    the two is resumed ([true]: the first). *)
Fixpoint overlap (schedule : list bool)
    (call1 call2 : Z * BorrowBody.t * BorrowStage) (s : State)
    : State * BorrowStage * BorrowStage :=
  match schedule with
  | [] => (s, snd call1, snd call2)
  | true :: rest =>
      let r := borrow_resume (fst (fst call1)) (snd (fst call1)) (snd call1) s in
      overlap rest (fst call1, snd r) call2 (fst r)
  | false :: rest =>
      let r := borrow_resume (fst (fst call2)) (snd (fst call2)) (snd call2) s in
      overlap rest call1 (fst call2, snd r) (fst r)
  end.

End Overlap.

(** A second student asking for the same book. *)
Definition example_request_2 : BorrowBody.t :=
  {| BorrowBody.bookId := 1%positive;
     BorrowBody.studentId := Some "S2";
     BorrowBody.studentName := Some "Ravi";
     BorrowBody.studentDepartment := Some "EE";
     BorrowBody.days := Some 7 |}.

(** A book request whose title is one no-break space (U+00A0). *)
Definition example_nbsp_book : BookBody.t :=
  {| BookBody.title := Some " "; BookBody.author := Some "Abelson";
     BookBody.isbn := None; BookBody.genre := None |}.

(** The status code of a call that has answered. *)
Definition answered_code (stage : BorrowStage) : option Z :=
  match stage with
  | Answered r => Some (code r)
  | _ => None
  end.

(** ** Calendar arithmetic *)

Module JSDateFacts.
Import JSDate.

Lemma DayFromYear_bounds y :
  146097 * (y - 1970) - 506 <= 400 * DayFromYear y
    <= 146097 * (y - 1970) + 589.
Proof. unfold DayFromYear. Z.div_mod_to_equations. lia. Qed.

(** [YearFromTime t] is the year that contains day [Day t]. *)
Lemma YearFromTime_spec t :
  DayFromYear (YearFromTime t) <= Day t < DayFromYear (YearFromTime t + 1).
Proof.
  unfold YearFromTime. generalize (Day t). intros d. cbv zeta.
  set (x := d * 400 / 146097).
  assert (Hx : 146097 * x <= 400 * d < 146097 * x + 146097)
    by (subst x; Z.div_mod_to_equations; lia).
  clearbody x.
  pose proof (DayFromYear_bounds (1970 + x)) as H0.
  pose proof (DayFromYear_bounds (1970 + x + 1)) as H1.
  pose proof (DayFromYear_bounds (1970 + x - 1)) as Hm.
  pose proof (DayFromYear_bounds (1970 + x + 1 + 1)) as Hp.
  destruct (Z.ltb_spec d (DayFromYear (1970 + x))).
  - replace (1970 + x - 1 + 1) with (1970 + x) by lia. lia.
  - destruct (Z.leb_spec (DayFromYear (1970 + x + 1)) d); lia.
Qed.

Lemma DaysInYear_spec y : DaysInYear y = DayFromYear (y + 1) - DayFromYear y.
Proof.
  unfold DaysInYear, DayFromYear.
  repeat match goal with
         | |- context [?a =? ?b] => destruct (Z.eqb_spec a b); cbn [negb]
         end; Z.div_mod_to_equations; lia.
Qed.

Lemma DayWithinYear_range t :
  0 <= DayWithinYear t < 365 + InLeapYear t.
Proof.
  pose proof (YearFromTime_spec t) as H.
  pose proof (DaysInYear_spec (YearFromTime t)) as Hd.
  unfold DayWithinYear, InLeapYear.
  assert (DaysInYear (YearFromTime t) = 365 \/ DaysInYear (YearFromTime t) = 366)
    as [E | E]
    by (unfold DaysInYear; repeat case_match; auto).
  - rewrite E in *. cbn. lia.
  - rewrite E in *. cbn. lia.
Qed.

Lemma MonthFromTime_range t : 0 <= MonthFromTime t <= 11.
Proof.
  unfold MonthFromTime. cbv zeta.
  repeat match goal with
         | |- context [if ?c then _ else _] => destruct c
         end; lia.
Qed.

(** The day of the month lies between 1 and 31. *)
Lemma DateFromTime_range t : 1 <= DateFromTime t <= 31.
Proof.
  pose proof (DayWithinYear_range t) as H.
  unfold DateFromTime, MonthFromTime. cbv zeta.
  assert (InLeapYear t = 0 \/ InLeapYear t = 1) as [E | E]
    by (unfold InLeapYear; case_match; auto);
    rewrite E in *;
    repeat match goal with
           | |- context [?a <? ?b] => destruct (Z.ltb_spec a b)
           end; cbn; lia.
Qed.

(** Setting the day of the month to the current one plus [n] moves the day
    number by [n]. *)
Lemma MakeDay_DateFromTime t n :
  MakeDay (YearFromTime t) (MonthFromTime t) (DateFromTime t + n) = Day t + n.
Proof.
  pose proof (MonthFromTime_range t) as Hm.
  unfold MakeDay, DateFromTime, DayWithinYear, InLeapYear. cbv zeta.
  replace (MonthFromTime t / 12) with 0 by (symmetry; apply Z.div_small; lia).
  rewrite Z.mod_small by lia.
  replace (YearFromTime t + 0) with (YearFromTime t) by lia.
  lia.
Qed.

(** [d.setDate(d.getDate() + n)] adds [n] days of 24 hours. *)
Lemma setDate_getDate tz t n :
  setDate tz t (getDate tz t + n) = TimeClip (t + n * msPerDay).
Proof.
  unfold setDate, getDate. cbv zeta.
  rewrite MakeDay_DateFromTime.
  f_equal. unfold MakeDate, UTC, LocalTime, Day, TimeWithinDay.
  pose proof (Z.div_mod (t + tz) msPerDay ltac:(unfold msPerDay; lia)).
  lia.
Qed.

Lemma TimeClip_representable t : representable t -> TimeClip t = Some t.
Proof.
  unfold representable, TimeClip. intros H.
  destruct (Z.leb_spec (Z.abs t) maxTime); [reflexivity | lia].
Qed.

End JSDateFacts.
(** Checks of the calendar on known dates. *)
Example utc_midnight_2024_01_10 : JSDate.utc_midnight 2024 1 10 = 1704844800000.
Proof. reflexivity. Qed.

Example calendar_known_dates :
  JSDate.getDate 0 (JSDate.utc_midnight 2024 2 29) = 29 /\
  JSDate.getDate 0 (JSDate.utc_midnight 2023 12 31 + 86399999) = 31 /\
  JSDate.getDate 19800000 (JSDate.utc_midnight 2023 12 31 + 86399999) = 1 /\
  JSDate.getDate 0 (-1) = 31 /\
  JSDate.YearFromTime (-1) = 1969 /\
  JSDate.setDate 0 (JSDate.utc_midnight 2024 1 25 + 5) 39
    = Some (JSDate.utc_midnight 2024 2 8 + 5).
Proof. repeat split; reflexivity. Qed.

(** ** Running handler bodies *)

Lemma required_string_truthy path v :
  truthy v = true -> exists x, v = Some x /\ required_string path v = inr x.
Proof.
  destruct v as [x |]; cbn; [| discriminate].
  intros H. exists x. split; [reflexivity |].
  destruct (String.eqb x EmptyString); [discriminate | reflexivity].
Qed.

Lemma required_string_falsy path v :
  truthy v = false -> required_string path v = inl (ValidationError path).
Proof.
  destruct v as [x |]; cbn; [| reflexivity].
  destruct (String.eqb x EmptyString); [reflexivity | discriminate].
Qed.

(** The handler monad: the usual laws, pointwise. *)
Lemma bind_ret_l {A B} (a : A) (k : A -> M B) s : bind (ret a) k s = k a s.
Proof. reflexivity. Qed.

Lemma bind_ret_r {A} (m : M A) s : bind m ret s = m s.
Proof. unfold bind, ret. destruct (m s) as [s' [e | a]]; reflexivity. Qed.

Lemma bind_assoc {A B C} (m : M A) (k : A -> M B) (h : B -> M C) s :
  bind (bind m k) h s = bind m (fun a => bind (k a) h) s.
Proof. unfold bind. destruct (m s) as [s' [e | a]]; reflexivity. Qed.

(** An exception skips the rest of the body and keeps the state reached. *)
Lemma bind_throw {A B} (e : Exn) (k : A -> M B) s :
  bind (throw e) k s = (s, inl e).
Proof. reflexivity. Qed.

(** On a stored Boolean the store refuses [$inc], whatever the operand. *)
Lemma mongo_inc_stored_bool path b operand :
  mongo_inc path (VBool b) operand = inl (TypeMismatch path).
Proof. reflexivity. Qed.

(** The Boolean cast of the two numbers the handlers can assign. *)
Lemma castBoolean_available_minus_1 :
  castBoolean (VNum (ToNumber true - 1)) = inr false /\
  castBoolean (VNum (ToNumber false - 1)) = inl (CastError "Boolean").
Proof. split; reflexivity. Qed.

Example trim_examples :
  trim "  The Art of  Proof " = "The Art of  Proof" /\
  trim "   " = EmptyString /\
  trim EmptyString = EmptyString /\
  trim "x" = "x" /\
  trim "   café　﻿ " = "café" /\
  trim " " = EmptyString /\
  trim "a b" = "a b" /\
  trim "​x​" = "​x​".
Proof. repeat split; reflexivity. Qed.

Lemma ToNumber_le_0 b : ToNumber b <= 0 <-> b = false.
Proof. destruct b; cbn; split; intros; try lia; congruence. Qed.

Ltac unfold_monad :=
  unfold Book_findById, Transaction_findById, Payment_findById,
    Transaction_save, Payment_save, Book_save;
  unfold try_catch, respond, lift, bind, ret, throw, gets, modify;
  cbv beta.

(** *** Return *)

(** What the return handler writes on transaction [t] at clock reading [now]. *)
Lemma post_transactions_return_state s now id t :
  transactions s !! id = Some t ->
  let daysLate := Z.max 0 ((now - Transaction.dueDate t) / 86400000) in
  fst (post_transactions_return now id s)
  = with_transactions
      (insert id (Transaction.set_returned t now daysLate (daysLate * 5)
                    (if 0 <? daysLate then returned_late else returned))) s.
Proof.
  intros Ht. unfold post_transactions_return,
    Book_findByIdAndUpdate_inc_available. unfold_monad.
  rewrite Ht. cbn.
  destruct (books s !! Transaction.book t) as [b |] eqn:Hb; cbn.
  - rewrite Hb. cbn. reflexivity.
  - reflexivity.
Qed.

(** The [$inc] on the Boolean path is refused, so a return of a stored
    transaction is answered by the [catch] branch. *)
Lemma post_transactions_return_response s now id t :
  transactions s !! id = Some t ->
  code (snd (post_transactions_return now id s)) = 500.
Proof.
  intros Ht. unfold post_transactions_return,
    Book_findByIdAndUpdate_inc_available. unfold_monad.
  rewrite Ht. cbn.
  destruct (books s !! Transaction.book t) as [b |] eqn:Hb; cbn.
  - rewrite Hb. cbn. reflexivity.
  - reflexivity.
Qed.

Lemma post_transactions_return_missing s now id :
  transactions s !! id = None ->
  post_transactions_return now id s
  = (s, {| code := 404; body := JsonError "Transaction not found" |}).
Proof.
  intros Ht. unfold post_transactions_return. unfold_monad.
  rewrite Ht. reflexivity.
Qed.

(** C1. For every stored transaction, the return handler sets
    daysLate = max(0, floor((returnDate - dueDate) / one day)),
    fineAmount = daysLate * 5 and status = returned_late when daysLate > 0,
    returned otherwise; a transaction due 2024-01-10 and returned
    2024-01-15 gets daysLate 5, fineAmount 25 and status returned_late. *)
Theorem return_computes_fine (s : State) (now : Z) (id : positive)
    (t : Transaction.doc) :
  transactions s !! id = Some t ->
  exists t',
    transactions (fst (post_transactions_return now id s)) !! id = Some t' /\
    Transaction.returnDate t' = Some now /\
    Transaction.daysLate t'
      = Z.max 0 ((now - Transaction.dueDate t) / JSDate.msPerDay) /\
    Transaction.fineAmount t' = Transaction.daysLate t' * 5 /\
    (Transaction.status t' = returned_late <-> Transaction.daysLate t' > 0) /\
    (Transaction.status t' = returned <-> Transaction.daysLate t' <= 0) /\
    (Transaction.dueDate t = JSDate.utc_midnight 2024 1 10 ->
     now = JSDate.utc_midnight 2024 1 15 ->
     Transaction.daysLate t' = 5 /\ Transaction.fineAmount t' = 25 /\
     Transaction.status t' = returned_late).
Proof.
  intros Ht. rewrite (post_transactions_return_state _ _ _ _ Ht). cbv zeta.
  eexists. split; [apply lookup_insert_eq |]. cbn.
  change JSDate.msPerDay with 86400000.
  set (d := Z.max 0 ((now - Transaction.dueDate t) / 86400000)).
  do 3 (split; [reflexivity |]).
  split; [| split].
  - destruct (Z.ltb_spec 0 d); split; intros; (lia || congruence).
  - destruct (Z.ltb_spec 0 d); split; intros; (lia || congruence).
  - intros Hd Hn. subst d. rewrite Hd, Hn. repeat split; reflexivity.
Qed.

Lemma return_computes_fine_witness :
  exists t',
    transactions
      (fst (post_transactions_return (JSDate.utc_midnight 2024 1 15)
              1%positive example_state)) !! 1%positive = Some t' /\
    Transaction.daysLate t' = 5 /\ Transaction.fineAmount t' = 25 /\
    Transaction.status t' = returned_late.
Proof.
  destruct (return_computes_fine example_state
              (JSDate.utc_midnight 2024 1 15) 1%positive example_loan)
    as (t' & Hl & _ & _ & _ & _ & _ & Hex); [reflexivity |].
  exists t'. split; [exact Hl |]. apply Hex; reflexivity.
Defined.



(** *** Borrow *)

Lemma post_transactions_borrow_missing tz s now req :
  books s !! BorrowBody.bookId req = None ->
  post_transactions_borrow tz now req s
  = (s, {| code := 404; body := JsonError "Book not found" |}).
Proof.
  intros Hb. unfold post_transactions_borrow. unfold_monad.
  rewrite Hb. reflexivity.
Qed.

Lemma post_transactions_borrow_unavailable tz s now req b :
  books s !! BorrowBody.bookId req = Some b ->
  Book.available b = false ->
  post_transactions_borrow tz now req s
  = (s, {| code := 400; body := JsonError "Book not available" |}).
Proof.
  intros Hb Ha. unfold post_transactions_borrow. unfold_monad.
  rewrite Hb, Ha. reflexivity.
Qed.

(** The transaction document that a borrow request writes. *)
Lemma post_transactions_borrow_available tz s now req b :
  books s !! BorrowBody.bookId req = Some b ->
  Book.available b = true ->
  valid_borrow_body now req ->
  exists sid nm dp,
    BorrowBody.studentId req = Some sid /\
    BorrowBody.studentName req = Some nm /\
    BorrowBody.studentDepartment req = Some dp /\
    let id := fresh (dom (transactions s)) in
    let t :=
      {| Transaction.book := BorrowBody.bookId req;
         Transaction.student :=
           {| Transaction.studentId := sid; Transaction.name := nm;
              Transaction.department := dp |};
         Transaction.borrowDate := now;
         Transaction.dueDate := now + loan_days req * JSDate.msPerDay;
         Transaction.returnDate := None; Transaction.status := borrowed;
         Transaction.fineAmount := 0; Transaction.finePaid := false;
         Transaction.finePaidDate := None; Transaction.daysLate := 0;
         Transaction.createdDate := now |} in
    let b' := Book.set_available b false in
    post_transactions_borrow tz now req s
    = (with_books (insert (BorrowBody.bookId req) b')
         (with_transactions (insert id t) s),
       {| code := 200;
          body := JsonTransaction "Book issued successfully" id t (Some b') |}).
Proof.
  intros Hb Ha (Hsid & Hnm & Hdp & Hdue).
  destruct (required_string_truthy "student.studentId" _ Hsid) as (sid & E1 & R1).
  destruct (required_string_truthy "student.name" _ Hnm) as (nm & E2 & R2).
  destruct (required_string_truthy "student.department" _ Hdp) as (dp & E3 & R3).
  exists sid, nm, dp. do 3 (split; [assumption |]). cbv zeta.
  unfold post_transactions_borrow, Transaction_insert, Book_available_minus,
    Transaction.create.
  fold (loan_days req).
  rewrite JSDateFacts.setDate_getDate, (JSDateFacts.TimeClip_representable _ Hdue).
  rewrite R1, R2, R3.
  unfold_monad. rewrite Hb, Ha. cbn.
  change (1 - 1) with 0. cbn.
  rewrite lookup_insert_eq. reflexivity.
Qed.

(** A request for an available book that leaves out a required student
    field is rejected by the schema when the transaction is saved: nothing
    is written. *)
Lemma post_transactions_borrow_unsupplied tz s now req b :
  books s !! BorrowBody.bookId req = Some b ->
  Book.available b = true ->
  truthy (BorrowBody.studentId req) = false ->
  post_transactions_borrow tz now req s
  = (s, {| code := 500;
           body := JsonCaught (ValidationError "student.studentId") |}).
Proof.
  intros Hb Ha Hs.
  unfold post_transactions_borrow, Transaction_insert, Transaction.create.
  rewrite (required_string_falsy _ _ Hs).
  unfold_monad. rewrite Hb, Ha. reflexivity.
Qed.

(** C3. A borrow request that names a stored book whose availability is
    <= 0 is answered 400 "Book not available" and leaves the whole state as
    it was: no transaction is created, no book is modified. *)
Theorem borrow_unavailable_fails (tz : Z) (s : State) (now : Z)
    (req : BorrowBody.t) (b : Book.doc) :
  books s !! BorrowBody.bookId req = Some b ->
  ToNumber (Book.available b) <= 0 ->
  post_transactions_borrow tz now req s
  = (s, {| code := 400; body := JsonError "Book not available" |}).
Proof.
  intros Hb Ha. apply ToNumber_le_0 in Ha.
  eapply post_transactions_borrow_unavailable; eassumption.
Qed.

Lemma borrow_unavailable_fails_witness :
  post_transactions_borrow 0 (JSDate.utc_midnight 2024 1 2) example_request
    example_state
  = (example_state,
     {| code := 400; body := JsonError "Book not available" |}).
Proof.
  apply (borrow_unavailable_fails 0 example_state _ example_request
           example_book); [reflexivity | cbn; lia].
Defined.

(** C2. For every valid borrow request (the book is stored and available,
    the student fields are supplied, the due date is a representable date)
    the created transaction has dueDate = borrowDate + the requested number
    of days (14 when none is requested), status borrowed, fineAmount 0 and
    finePaid false, and the availability of the book goes down by exactly
    one. *)
Theorem borrow_creates_loan (tz : Z) (s : State) (now : Z)
    (req : BorrowBody.t) (b : Book.doc) :
  books s !! BorrowBody.bookId req = Some b ->
  Book.available b = true ->
  valid_borrow_body now req ->
  let s' := fst (post_transactions_borrow tz now req s) in
  let r := snd (post_transactions_borrow tz now req s) in
  exists id t b',
    r = {| code := 200;
           body := JsonTransaction "Book issued successfully" id t (Some b') |} /\
    transactions s !! id = None /\
    transactions s' = <[id := t]> (transactions s) /\
    Transaction.book t = BorrowBody.bookId req /\
    Transaction.borrowDate t = now /\
    Transaction.dueDate t
      = Transaction.borrowDate t
        + default 14 (BorrowBody.days req) * JSDate.msPerDay /\
    Transaction.status t = borrowed /\
    Transaction.fineAmount t = 0 /\
    Transaction.finePaid t = false /\
    books s' = <[BorrowBody.bookId req := b']> (books s) /\
    ToNumber (Book.available b') = ToNumber (Book.available b) - 1 /\
    b' = Book.set_available b false.
Proof.
  intros Hb Ha Hv.
  destruct (post_transactions_borrow_available tz s now req b Hb Ha Hv)
    as (sid & nm & dp & _ & _ & _ & E).
  cbv zeta in *. rewrite E. cbn.
  eexists _, _, _. split; [reflexivity |].
  split.
  { apply not_elem_of_dom. apply is_fresh. }
  rewrite Ha. repeat split; reflexivity.
Qed.

Lemma borrow_creates_loan_witness :
  exists id t b',
    snd (post_transactions_borrow 19800000 (JSDate.utc_midnight 2024 1 2)
           example_request example_shelf)
    = {| code := 200;
         body := JsonTransaction "Book issued successfully" id t (Some b') |} /\
    Transaction.dueDate t = JSDate.utc_midnight 2024 1 16 /\
    Book.available b' = false.
Proof.
  destruct (borrow_creates_loan 19800000 example_shelf
              (JSDate.utc_midnight 2024 1 2) example_request
              (Book.set_available example_book true))
    as (id & t & b' & Hr & _ & _ & _ & Hbd & Hdue & _ & _ & _ & _ & _ & Hb').
  - reflexivity.
  - reflexivity.
  - repeat split; try reflexivity.
    unfold representable. apply Z.leb_le. vm_compute. reflexivity.
  - exists id, t, b'. split; [exact Hr |]. split.
    + rewrite Hdue, Hbd. reflexivity.
    + rewrite Hb'. reflexivity.
Defined.

(** *** Direct fine settlement *)

Lemma put_transactions_pay_fine_found s now id t :
  transactions s !! id = Some t ->
  put_transactions_pay_fine now id s
  = (with_transactions (insert id (Transaction.set_finePaid t now)) s,
     {| code := 200;
        body := JsonTransaction "Fine payment recorded successfully!" id
                  (Transaction.set_finePaid t now) None |}).
Proof.
  intros Ht. unfold put_transactions_pay_fine. unfold_monad.
  rewrite Ht. reflexivity.
Qed.

Lemma put_transactions_pay_fine_missing s now id :
  transactions s !! id = None ->
  put_transactions_pay_fine now id s
  = (s, {| code := 404; body := JsonError "Transaction not found" |}).
Proof.
  intros Ht. unfold put_transactions_pay_fine. unfold_monad.
  rewrite Ht. reflexivity.
Qed.

(** C7. For every stored transaction, pay-fine sets finePaid = true and
    finePaidDate = now, changes no other field of the transaction and no
    other transaction, and creates or modifies no payment (nor any book). *)
Theorem pay_fine_frame (s : State) (now : Z) (id : positive)
    (t : Transaction.doc) :
  transactions s !! id = Some t ->
  let s' := fst (put_transactions_pay_fine now id s) in
  exists t',
    transactions s' = <[id := t']> (transactions s) /\
    Transaction.finePaid t' = true /\
    Transaction.finePaidDate t' = Some now /\
    Transaction.status t' = Transaction.status t /\
    Transaction.fineAmount t' = Transaction.fineAmount t /\
    Transaction.daysLate t' = Transaction.daysLate t /\
    Transaction.returnDate t' = Transaction.returnDate t /\
    Transaction.borrowDate t' = Transaction.borrowDate t /\
    Transaction.dueDate t' = Transaction.dueDate t /\
    Transaction.createdDate t' = Transaction.createdDate t /\
    Transaction.book t' = Transaction.book t /\
    Transaction.student t' = Transaction.student t /\
    payments s' = payments s /\
    books s' = books s.
Proof.
  intros Ht. rewrite (put_transactions_pay_fine_found _ _ _ _ Ht). cbn.
  eexists. split; [reflexivity |]. repeat split; reflexivity.
Qed.

Lemma pay_fine_frame_witness :
  exists t',
    transactions
      (fst (put_transactions_pay_fine 1705276800000 1%positive example_state))
    = <[1%positive := t']> (transactions example_state) /\
    Transaction.finePaid t' = true /\
    Transaction.status t' = borrowed /\
    payments
      (fst (put_transactions_pay_fine 1705276800000 1%positive example_state))
    = ∅.
Proof.
  destruct (pay_fine_frame example_state 1705276800000 1%positive example_loan)
    as (t' & Htx & Hp & _ & Hst & _ & _ & _ & _ & _ & _ & _ & _ & Hpay & _);
    [reflexivity |].
  exists t'. repeat split; assumption.
Defined.

(** *** Payment verification *)

Lemma post_payments_verify_missing s now req :
  payments s !! VerifyBody.paymentId req = None ->
  post_payments_verify now req s
  = (s, {| code := 404; body := JsonError "Payment not found" |}).
Proof.
  intros Hp. unfold post_payments_verify. unfold_monad.
  rewrite Hp. reflexivity.
Qed.

Lemma post_payments_verify_found s now req p :
  payments s !! VerifyBody.paymentId req = Some p ->
  let utr :=
    if truthy (VerifyBody.utrNumber req)
    then default EmptyString (VerifyBody.utrNumber req)
    else "UTR" +:+ pretty now in
  let p' := Payment.set_verified p utr now in
  let s1 := with_payments (insert (VerifyBody.paymentId req) p') s in
  post_payments_verify now req s
  = (match transactions s !! Payment.transactionId p with
     | Some t =>
         with_transactions
           (insert (Payment.transactionId p) (Transaction.set_finePaid t now))
           s1
     | None => s1
     end,
     {| code := 200;
        body := JsonPayment "Payment verified successfully!"
                  (VerifyBody.paymentId req) p' |}).
Proof.
  intros Hp. unfold post_payments_verify,
    Transaction_findByIdAndUpdate_finePaid. unfold_monad.
  rewrite Hp. cbn.
  destruct (transactions s !! Payment.transactionId p); reflexivity.
Qed.

(** C6. For every stored payment, verify sets paymentStatus = completed,
    utrNumber = the supplied value, or the token "UTR" followed by the
    current time when none is supplied, and paymentDate = now; and it sets
    finePaid = true and finePaidDate = now on the linked transaction,
    whatever the payment's amount and the transaction's fineAmount are. *)
Theorem verify_settles_fine (s : State) (now : Z) (req : VerifyBody.t)
    (p : Payment.doc) :
  payments s !! VerifyBody.paymentId req = Some p ->
  let s' := fst (post_payments_verify now req s) in
  exists p',
    payments s' = <[VerifyBody.paymentId req := p']> (payments s) /\
    Payment.paymentStatus p' = completed /\
    (forall u, VerifyBody.utrNumber req = Some u -> u <> EmptyString ->
               Payment.utrNumber p' = Some u) /\
    (truthy (VerifyBody.utrNumber req) = false ->
     Payment.utrNumber p' = Some ("UTR" +:+ pretty now)) /\
    Payment.paymentDate p' = Some now /\
    Payment.amount p' = Payment.amount p /\
    Payment.transactionId p' = Payment.transactionId p /\
    (forall t, transactions s !! Payment.transactionId p = Some t ->
       exists t',
         transactions s' = <[Payment.transactionId p := t']> (transactions s) /\
         Transaction.finePaid t' = true /\
         Transaction.finePaidDate t' = Some now /\
         Transaction.fineAmount t' = Transaction.fineAmount t /\
         Transaction.status t' = Transaction.status t).
Proof.
  intros Hp. rewrite (post_payments_verify_found _ _ _ _ Hp). cbv zeta.
  eexists. split; [| split; [| split; [| split; [| split; [| split; [| split]]]]]].
  - destruct (transactions s !! Payment.transactionId p); reflexivity.
  - reflexivity.
  - intros u Hu Hne. cbn. rewrite Hu. cbn.
    destruct (String.eqb_spec u EmptyString); [contradiction | reflexivity].
  - intros Hf. cbn. rewrite Hf. reflexivity.
  - reflexivity.
  - reflexivity.
  - reflexivity.
  - intros t Ht. rewrite Ht. cbn. eexists. split; [reflexivity |].
    repeat split; reflexivity.
Qed.

Lemma verify_settles_fine_witness :
  exists p',
    payments (fst (post_payments_verify 1705276800000 example_verify
                     example_billed))
    = <[1%positive := p']> (payments example_billed) /\
    Payment.paymentStatus p' = completed /\
    Payment.utrNumber p' = Some "UTR1705276800000" /\
    exists t',
      transactions (fst (post_payments_verify 1705276800000 example_verify
                           example_billed))
      = <[1%positive := t']> (transactions example_billed) /\
      Transaction.finePaid t' = true /\
      Transaction.fineAmount t' = 0 /\
      Payment.amount p' = 1.
Proof.
  destruct (verify_settles_fine example_billed 1705276800000 example_verify
              example_payment)
    as (p' & Hpay & Hst & _ & Hutr & _ & Ham & _ & Htx); [reflexivity |].
  destruct (Htx example_loan) as (t' & Ht' & Hfp & _ & Hfa & _);
    [reflexivity |].
  exists p'. split; [exact Hpay |]. split; [exact Hst |].
  split; [apply Hutr; reflexivity |].
  exists t'. split; [exact Ht' |]. split; [exact Hfp |].
  split; [rewrite Hfa | rewrite Ham]; reflexivity.
Defined.

(** *** Payment creation *)

Lemma post_payments_create_upi_missing s now req :
  transactions s !! CreateUpiBody.transactionId req = None ->
  post_payments_create_upi now req s
  = (s, {| code := 404; body := JsonError "Transaction not found" |}).
Proof.
  intros Ht. unfold post_payments_create_upi. unfold_monad.
  rewrite Ht. reflexivity.
Qed.

Lemma post_payments_create_upi_valid s now req t :
  transactions s !! CreateUpiBody.transactionId req = Some t ->
  valid_payment_body req ->
  exists sid nm amt,
    CreateUpiBody.studentId req = Some sid /\
    CreateUpiBody.studentName req = Some nm /\
    CreateUpiBody.amount req = Some amt /\
    let id := fresh (dom (payments s)) in
    let p :=
      {| Payment.transactionId := CreateUpiBody.transactionId req;
         Payment.studentId := sid; Payment.studentName := nm;
         Payment.amount := amt; Payment.upiId := "raitlibrary@axisbank";
         Payment.paymentStatus := pending; Payment.paymentMethod := "UPI";
         Payment.utrNumber := None; Payment.paymentDate := None;
         Payment.createdDate := now |} in
    post_payments_create_upi now req s
    = (with_payments (insert id p) s,
       {| code := 200;
          body := JsonPaymentProjection id amt "raitlibrary@axisbank" pending |}).
Proof.
  intros Ht (Hsid & Hnm & [amt Hamt]).
  destruct (required_string_truthy "studentId" _ Hsid) as (sid & E1 & R1).
  destruct (required_string_truthy "studentName" _ Hnm) as (nm & E2 & R2).
  exists sid, nm, amt. do 3 (split; [assumption |]). cbv zeta.
  unfold post_payments_create_upi, Payment_insert, Payment.create.
  rewrite R1, R2, Hamt. unfold_monad. rewrite Ht. reflexivity.
Qed.

(** A request that leaves out a required field is rejected by the schema
    when the payment is saved: nothing is written. *)
Lemma post_payments_create_upi_invalid s now req t :
  transactions s !! CreateUpiBody.transactionId req = Some t ->
  ~ valid_payment_body req ->
  fst (post_payments_create_upi now req s) = s /\
  code (snd (post_payments_create_upi now req s)) = 500.
Proof.
  intros Ht Hn.
  unfold post_payments_create_upi, Payment_insert, Payment.create.
  unfold_monad. rewrite Ht.
  destruct (truthy (CreateUpiBody.studentId req)) eqn:H1.
  - destruct (required_string_truthy "studentId" _ H1) as (sid & _ & ->).
    destruct (truthy (CreateUpiBody.studentName req)) eqn:H2.
    + destruct (required_string_truthy "studentName" _ H2) as (nm & _ & ->).
      destruct (CreateUpiBody.amount req) as [amt |] eqn:H3.
      * exfalso. apply Hn. unfold valid_payment_body.
        rewrite H1, H2, H3. eauto.
      * cbn. auto.
    + rewrite (required_string_falsy _ _ H2). cbn. auto.
  - rewrite (required_string_falsy _ _ H1). cbn. auto.
Qed.

(** C8, as stated, fails: the transaction exists, yet a request without a
    student id creates no payment (the schema requires the field). *)
Lemma create_upi_incomplete_body_counterexample :
  let req := {| CreateUpiBody.transactionId := 1%positive;
                CreateUpiBody.studentId := None;
                CreateUpiBody.studentName := Some "Asha";
                CreateUpiBody.amount := Some 25 |} in
  transactions example_state !! 1%positive = Some example_loan /\
  post_payments_create_upi 1705276800000 req example_state
  = (example_state,
     {| code := 500; body := JsonCaught (ValidationError "studentId") |}) /\
  payments example_state = ∅.
Proof. repeat split; reflexivity. Qed.

(** C8 (amended). For every payment-creation request whose transaction is
    stored and which supplies a non-empty studentId and studentName and an
    amount, a payment is created with paymentStatus pending, upiId
    "raitlibrary@axisbank" and paymentMethod "UPI", and it stores the
    amount of the request, whatever the transaction's fineAmount is; when
    the transaction is not stored the request is answered 404 and the state
    is unchanged. *)
Theorem create_upi_pending_payment (s : State) (now : Z)
    (req : CreateUpiBody.t) :
  (forall t amt,
     transactions s !! CreateUpiBody.transactionId req = Some t ->
     valid_payment_body req ->
     CreateUpiBody.amount req = Some amt ->
     exists id p,
       payments s !! id = None /\
       post_payments_create_upi now req s
       = (with_payments (insert id p) s,
          {| code := 200;
             body := JsonPaymentProjection id amt "raitlibrary@axisbank"
                       pending |}) /\
       Payment.transactionId p = CreateUpiBody.transactionId req /\
       Payment.paymentStatus p = pending /\
       Payment.upiId p = "raitlibrary@axisbank" /\
       Payment.paymentMethod p = "UPI" /\
       Payment.amount p = amt) /\
  (transactions s !! CreateUpiBody.transactionId req = None ->
   post_payments_create_upi now req s
   = (s, {| code := 404; body := JsonError "Transaction not found" |})).
Proof.
  split.
  - intros t amt Ht Hv Hamt.
    destruct (post_payments_create_upi_valid s now req t Ht Hv)
      as (sid & nm & amt' & _ & _ & Hamt' & E).
    assert (amt' = amt) as -> by congruence.
    cbv zeta in E. eexists _, _. split; [| split; [exact E |]].
    + apply not_elem_of_dom. apply is_fresh.
    + repeat split; reflexivity.
  - apply post_payments_create_upi_missing.
Qed.

Lemma create_upi_pending_payment_witness :
  exists id p,
    post_payments_create_upi 1705276800000 example_bill example_state
    = (with_payments (insert id p) example_state,
       {| code := 200;
          body := JsonPaymentProjection id 25 "raitlibrary@axisbank"
                    pending |}) /\
    Payment.paymentStatus p = pending /\
    Payment.amount p = 25 /\
    Transaction.fineAmount example_loan = 0.
Proof.
  destruct (create_upi_pending_payment example_state 1705276800000
              example_bill) as [H _].
  destruct (H example_loan 25) as (id & p & _ & E & _ & Hst & _ & _ & Ham).
  - reflexivity.
  - repeat split; try reflexivity. exists 25. reflexivity.
  - reflexivity.
  - exists id, p. repeat split; assumption.
Defined.

(** *** Book creation *)

Lemma truthy_trim_false v : truthy v = false -> missing v.
Proof.
  unfold missing. destruct v as [x |]; cbn; [| reflexivity].
  destruct (String.eqb_spec x EmptyString); [| discriminate].
  subst x. reflexivity.
Qed.

Lemma post_books_not_connected s now req :
  isDBConnected s = false ->
  post_books now req s
  = (s, {| code := 503;
           body := JsonError "Database connecting, please try again" |}).
Proof. intros Hc. unfold post_books. rewrite Hc. reflexivity. Qed.

Lemma post_books_falsy s now req :
  isDBConnected s = true ->
  truthy (BookBody.title req) = false \/ truthy (BookBody.author req) = false ->
  post_books now req s
  = (s, {| code := 400; body := JsonError "Title and author are required" |}).
Proof.
  intros Hc H. unfold post_books. rewrite Hc. unfold_monad. cbn.
  destruct H as [-> | ->]; cbn; [reflexivity |].
  rewrite orb_true_r. reflexivity.
Qed.

(** Whatever the answer is, a request whose title or author is missing
    (absent, or blank once trimmed) stores no book. *)
Lemma post_books_missing_state s now req :
  missing (BookBody.title req) \/ missing (BookBody.author req) ->
  fst (post_books now req s) = s /\
  code (snd (post_books now req s)) <> 201.
Proof.
  unfold missing. intros H. unfold post_books.
  destruct (isDBConnected s); cbn; [| split; [reflexivity | discriminate]].
  unfold_monad.
  destruct (negb (truthy (BookBody.title req))
            || negb (truthy (BookBody.author req))); cbn;
    [split; [reflexivity | discriminate] |].
  unfold Book_insert, Book.create. unfold_monad.
  destruct H as [H | H].
  - rewrite (required_string_falsy _ _ H). cbn.
    split; [reflexivity | discriminate].
  - destruct (required_string "title" (trim <$> BookBody.title req)); cbn;
      [split; [reflexivity | discriminate] |].
    rewrite (required_string_falsy _ _ H). cbn.
    split; [reflexivity | discriminate].
Qed.

(** A title that is only white space passes the handler's own test and is
    rejected by the schema: the answer is 500, not 400. *)
Lemma post_books_blank_title :
  post_books 0 example_blank_book example_state
  = (example_state,
     {| code := 500; body := JsonCaught (ValidationError "title") |}).
Proof. reflexivity. Qed.

(** C9, as stated, fails: while the database is not connected a request
    without a title is answered 503, not 400. *)
Lemma post_books_not_connected_counterexample :
  let s := with_connected false example_state in
  let req := {| BookBody.title := None; BookBody.author := Some "Abelson";
                BookBody.isbn := None; BookBody.genre := None |} in
  missing (BookBody.title req) /\
  post_books 0 req s
  = (s, {| code := 503;
           body := JsonError "Database connecting, please try again" |}).
Proof. split; reflexivity. Qed.

(** C9 (amended). For every book-creation request handled while the
    database is connected and whose title or author is absent or the empty
    string, the answer is 400 "Title and author are required" and no book
    is stored; while the database is not connected the answer is 503 and no
    book is stored either. *)
Theorem post_books_requires_title_author (s : State) (now : Z)
    (req : BookBody.t) :
  truthy (BookBody.title req) = false \/ truthy (BookBody.author req) = false ->
  (isDBConnected s = true ->
   post_books now req s
   = (s, {| code := 400;
            body := JsonError "Title and author are required" |})) /\
  (isDBConnected s = false ->
   post_books now req s
   = (s, {| code := 503;
            body := JsonError "Database connecting, please try again" |})).
Proof.
  intros H. split; intros Hc.
  - apply post_books_falsy; assumption.
  - apply post_books_not_connected; assumption.
Qed.

Lemma post_books_requires_title_author_witness :
  post_books 0 example_untitled_book example_state
  = (example_state,
     {| code := 400; body := JsonError "Title and author are required" |}).
Proof.
  destruct (post_books_requires_title_author example_state 0
              example_untitled_book) as [H _].
  - left. reflexivity.
  - apply H. reflexivity.
Defined.

(** *** Borrow then return, and return twice *)

(** The return handler never writes to the book collection: its [$inc] on
    the Boolean path [available] is refused by the store. *)
Lemma post_transactions_return_books s now id :
  books (fst (post_transactions_return now id s)) = books s.
Proof.
  destruct (transactions s !! id) as [t |] eqn:Ht.
  - rewrite (post_transactions_return_state _ _ _ _ Ht). reflexivity.
  - rewrite (post_transactions_return_missing _ _ _ Ht). reflexivity.
Qed.

(** Borrow followed by a return that is not late: the transaction is
    closed without a fine, but the book stays flagged unavailable. *)
Lemma borrow_then_return tz s now now' req b :
  books s !! BorrowBody.bookId req = Some b ->
  Book.available b = true ->
  valid_borrow_body now req ->
  now' <= now + loan_days req * JSDate.msPerDay ->
  let s1 := fst (post_transactions_borrow tz now req s) in
  let id := fresh (dom (transactions s)) in
  let s2 := fst (post_transactions_return now' id s1) in
  (exists t, transactions s2 !! id = Some t /\
             Transaction.fineAmount t = 0 /\
             Transaction.status t = returned) /\
  books s2 !! BorrowBody.bookId req = Some (Book.set_available b false) /\
  code (snd (post_transactions_return now' id s1)) = 500.
Proof.
  intros Hb Ha Hv Hle.
  destruct (post_transactions_borrow_available tz s now req b Hb Ha Hv)
    as (sid & nm & dp & _ & _ & _ & E).
  cbv zeta in *. rewrite E. cbn [fst].
  match goal with
  | |- context [post_transactions_return now' ?i (with_books ?f (with_transactions (insert ?i ?t) s))] =>
      assert (Ht : transactions (with_books f (with_transactions (insert i t) s)) !! i = Some t)
        by apply lookup_insert_eq
  end.
  rewrite (post_transactions_return_state _ _ _ _ Ht).
  rewrite (post_transactions_return_response _ _ _ _ Ht).
  cbn.
  assert (Hd : (now' - (now + loan_days req * JSDate.msPerDay)) / 86400000 <= 0).
  { apply Z.lt_succ_r. apply Z.div_lt_upper_bound; lia. }
  rewrite (Z.max_l 0) by exact Hd.
  split; [| split; [apply lookup_insert_eq | reflexivity]].
  eexists. split; [apply lookup_insert_eq |]. cbn. split; reflexivity.
Qed.

(** Two returns of the same transaction: the second overwrites what the
    first wrote, computing from the unchanged due date and the second clock
    reading; neither touches the books. *)
Lemma return_twice s now1 now2 id t :
  transactions s !! id = Some t ->
  let s2 := fst (post_transactions_return now2 id
                   (fst (post_transactions_return now1 id s))) in
  let daysLate := Z.max 0 ((now2 - Transaction.dueDate t) / 86400000) in
  transactions s2
  = <[id := Transaction.set_returned t now2 daysLate (daysLate * 5)
              (if 0 <? daysLate then returned_late else returned)]>
      (transactions s) /\
  books s2 = books s.
Proof.
  intros Ht. cbv zeta.
  rewrite (post_transactions_return_state s now1 id t Ht). cbv zeta.
  match goal with
  | |- context [post_transactions_return now2 id (with_transactions (insert id ?t1) s)] =>
      rewrite (post_transactions_return_state
                 (with_transactions (insert id t1) s) now2 id t1)
        by apply lookup_insert_eq
  end.
  cbn. rewrite insert_insert_eq. split; reflexivity.
Qed.

(** C4 on the example shelf: a book that is available is borrowed and
    returned at once.  The transaction ends with fineAmount 0 and status
    returned, but the book is left unavailable and the return is answered
    500: the increment that should restore the availability is refused on
    the Boolean path. *)
Theorem round_trip_does_not_restore_availability :
  let now := JSDate.utc_midnight 2024 1 2 in
  let s0 := example_shelf in
  let s1 := fst (post_transactions_borrow 0 now example_request s0) in
  let s2 := fst (post_transactions_return now 1%positive s1) in
  Book.available <$> books s0 !! 1%positive = Some true /\
  Transaction.fineAmount <$> transactions s2 !! 1%positive = Some 0 /\
  Transaction.status <$> transactions s2 !! 1%positive = Some returned /\
  Book.available <$> books s2 !! 1%positive = Some false /\
  snd (post_transactions_return now 1%positive s1)
  = {| code := 500; body := JsonCaught (TypeMismatch "available") |}.
Proof. cbv zeta. repeat split; vm_compute; reflexivity. Qed.

(** C5 on the example ledger: the loan due 2024-01-10 is returned on the
    due date and again five days later.  The second call recomputes from
    the unchanged due date (daysLate 5, fineAmount 25, returned_late), but
    both calls are answered 500 and the availability of the book is not
    incremented at all. *)
Theorem double_return_does_not_increment_availability :
  let r1 := post_transactions_return (JSDate.utc_midnight 2024 1 10)
              1%positive example_state in
  let r2 := post_transactions_return (JSDate.utc_midnight 2024 1 15)
              1%positive (fst r1) in
  Transaction.daysLate <$> transactions (fst r1) !! 1%positive = Some 0 /\
  Transaction.fineAmount <$> transactions (fst r1) !! 1%positive = Some 0 /\
  Transaction.status <$> transactions (fst r1) !! 1%positive
    = Some returned /\
  Transaction.daysLate <$> transactions (fst r2) !! 1%positive = Some 5 /\
  Transaction.fineAmount <$> transactions (fst r2) !! 1%positive = Some 25 /\
  Transaction.status <$> transactions (fst r2) !! 1%positive
    = Some returned_late /\
  snd r1 = {| code := 500; body := JsonCaught (TypeMismatch "available") |} /\
  snd r2 = {| code := 500; body := JsonCaught (TypeMismatch "available") |} /\
  Book.available <$> books example_state !! 1%positive = Some false /\
  Book.available <$> books (fst r1) !! 1%positive = Some false /\
  Book.available <$> books (fst r2) !! 1%positive = Some false.
Proof. cbv zeta. repeat split; vm_compute; reflexivity. Qed.

(** ** One loan per book *)

Section Ledger.

Variable tz : Z.

Lemma post_books_change s now req : change s (fst (post_books now req s)).
Proof.
  unfold post_books.
  destruct (isDBConnected s); cbn; [| by apply change_none].
  unfold_monad.
  destruct (negb (truthy (BookBody.title req))
            || negb (truthy (BookBody.author req))); cbn;
    [by apply change_none |].
  unfold Book_insert. unfold_monad.
  destruct (Book.create now _ _ _ _) as [e | bk]; cbn;
    [by apply change_none |].
  destruct (Book.isbn_taken (Book.isbn bk) (books s)); cbn;
    [by apply change_none |].
  eapply change_new_book; [| reflexivity | reflexivity].
  apply not_elem_of_dom. apply is_fresh.
Qed.

Lemma post_transactions_borrow_change s now req :
  change s (fst (post_transactions_borrow tz now req s)).
Proof.
  destruct (books s !! BorrowBody.bookId req) as [b |] eqn:Hb.
  2: { rewrite (post_transactions_borrow_missing _ _ _ _ Hb).
       by apply change_none. }
  destruct (Book.available b) eqn:Ha.
  2: { rewrite (post_transactions_borrow_unavailable _ _ _ _ _ Hb Ha).
       by apply change_none. }
  unfold post_transactions_borrow, Transaction_insert, Book_available_minus.
  unfold_monad. rewrite Hb, Ha. cbn.
  destruct (Transaction.create now _ _ _ _ _ _) as [e | t] eqn:Hc; cbn;
    [by apply change_none |].
  change (1 - 1) with 0. cbn.
  assert (Transaction.book t = BorrowBody.bookId req) as Hbook.
  { unfold Transaction.create in Hc.
    repeat match type of Hc with
           | match ?x with _ => _ end = _ => destruct x; try discriminate
           end.
    injection Hc as <-. reflexivity. }
  eapply (change_loan _ _ (fresh (dom (transactions s))) t b).
  - apply not_elem_of_dom. apply is_fresh.
  - by rewrite Hbook.
  - exact Ha.
  - by rewrite Hbook.
  - reflexivity.
Qed.

Lemma post_transactions_return_change s now id :
  change s (fst (post_transactions_return now id s)).
Proof.
  destruct (transactions s !! id) as [t |] eqn:Ht.
  - rewrite (post_transactions_return_state _ _ _ _ Ht). cbv zeta.
    eapply change_transaction; [exact Ht | | reflexivity | reflexivity].
    reflexivity.
  - rewrite (post_transactions_return_missing _ _ _ Ht). by apply change_none.
Qed.

Lemma post_payments_create_upi_change s now req :
  change s (fst (post_payments_create_upi now req s)).
Proof.
  unfold post_payments_create_upi, Payment_insert. unfold_monad.
  destruct (transactions s !! CreateUpiBody.transactionId req); cbn;
    [| by apply change_none].
  destruct (Payment.create now _ _ _ _ _); cbn; by apply change_none.
Qed.

Lemma post_payments_verify_change s now req :
  change s (fst (post_payments_verify now req s)).
Proof.
  destruct (payments s !! VerifyBody.paymentId req) as [p |] eqn:Hp.
  - rewrite (post_payments_verify_found _ _ _ _ Hp). cbv zeta.
    destruct (transactions s !! Payment.transactionId p) as [t |] eqn:Ht; cbn.
    + eapply change_transaction; [exact Ht | | reflexivity | reflexivity].
      reflexivity.
    + by apply change_none.
  - rewrite (post_payments_verify_missing _ _ _ Hp). by apply change_none.
Qed.

Lemma put_transactions_pay_fine_change s now id :
  change s (fst (put_transactions_pay_fine now id s)).
Proof.
  destruct (transactions s !! id) as [t |] eqn:Ht.
  - rewrite (put_transactions_pay_fine_found _ _ _ _ Ht). cbn.
    eapply change_transaction; [exact Ht | | reflexivity | reflexivity].
    reflexivity.
  - rewrite (put_transactions_pay_fine_missing _ _ _ Ht). by apply change_none.
Qed.

Lemma step_change s ev : change s (step tz s ev).
Proof.
  destruct ev as [now [req | req | id | req | req | id | |]]; cbn.
  - apply post_books_change.
  - apply post_transactions_borrow_change.
  - apply post_transactions_return_change.
  - apply post_payments_create_upi_change.
  - apply post_payments_verify_change.
  - apply put_transactions_pay_fine_change.
  - by apply change_none.
  - by apply change_none.
Qed.

(** A book that is flagged unavailable stays so, whatever is served. *)
Lemma change_unavailable s s' b bk :
  change s s' ->
  books s !! b = Some bk -> Book.available bk = false ->
  books s' !! b = Some bk.
Proof.
  intros [Hb _ | id nb Hid Hb _ | id t b0 _ Hb0 Ha Hb _ | id t t' _ _ Hb _]
    Hl Hf; rewrite Hb; try assumption.
  - rewrite lookup_insert_ne; [assumption | congruence].
  - rewrite lookup_insert_ne; [assumption | congruence].
Qed.

Lemma run_unavailable evs s b bk :
  books s !! b = Some bk -> Book.available bk = false ->
  books (run tz s evs) !! b = Some bk.
Proof.
  revert s. induction evs as [| ev evs IH]; intros s Hl Hf; [exact Hl |].
  cbn. apply IH; [| exact Hf].
  eapply change_unavailable; [apply step_change | exact Hl | exact Hf].
Qed.

Lemma change_ledger_inv s s' : change s s' -> ledger_inv s -> ledger_inv s'.
Proof.
  intros Hc [I1 I2].
  destruct Hc as [Hb Ht | id nb Hid Hb Ht | id t b0 Hid Hb0 Ha Hb Ht
                 | id t t' Hid Hbook Hb Ht].
  - split.
    + intros i ti. rewrite Ht, Hb. apply I1.
    + intros i j ti tj. rewrite Ht. apply I2.
  - split.
    + intros i ti. rewrite Ht, Hb. intros Hi.
      destruct (I1 i ti Hi) as (bk & Hbk & Hf). exists bk. split; [| exact Hf].
      rewrite lookup_insert_ne; [assumption | congruence].
    + intros i j ti tj. rewrite Ht. apply I2.
  - assert (Hnone : forall j tj, transactions s !! j = Some tj ->
                                 Transaction.book tj <> Transaction.book t).
    { intros j tj Hj E. destruct (I1 j tj Hj) as (bk & Hbk & Hf).
      rewrite E in Hbk. congruence. }
    split.
    + intros i ti. rewrite Ht, Hb. intros Hi.
      destruct (decide (id = i)) as [Ei | Hne].
      * subst i. rewrite lookup_insert_eq in Hi. injection Hi as <-.
        eexists. split; [apply lookup_insert_eq | reflexivity].
      * rewrite lookup_insert_ne in Hi by assumption.
        destruct (I1 i ti Hi) as (bk & Hbk & Hf). exists bk.
        split; [| exact Hf].
        rewrite lookup_insert_ne; [assumption |].
        intros E. apply (Hnone i ti Hi). by symmetry.
    + intros i j ti tj. rewrite Ht. intros Hi Hj E.
      destruct (decide (id = i)) as [Ei | Hni];
        destruct (decide (id = j)) as [Ej | Hnj]; [congruence | | |].
      * subst i. rewrite lookup_insert_eq in Hi. injection Hi as <-.
        rewrite lookup_insert_ne in Hj by assumption.
        exfalso. apply (Hnone j tj Hj). by symmetry.
      * subst j. rewrite lookup_insert_eq in Hj. injection Hj as <-.
        rewrite lookup_insert_ne in Hi by assumption.
        exfalso. by apply (Hnone i ti Hi).
      * rewrite lookup_insert_ne in Hi, Hj by assumption.
        by apply (I2 i j ti tj).
  - split.
    + intros i ti. rewrite Ht, Hb. intros Hi.
      destruct (decide (id = i)) as [Ei | Hne].
      * subst i. rewrite lookup_insert_eq in Hi. injection Hi as <-.
        rewrite Hbook. by apply (I1 id t).
      * rewrite lookup_insert_ne in Hi by assumption. by apply (I1 i ti).
    + intros i j ti tj. rewrite Ht. intros Hi Hj E.
      destruct (decide (id = i)) as [Ei | Hni];
        destruct (decide (id = j)) as [Ej | Hnj]; [congruence | | |].
      * subst i. rewrite lookup_insert_eq in Hi. injection Hi as <-.
        rewrite lookup_insert_ne in Hj by assumption.
        apply (I2 id j t tj); [assumption | assumption | congruence].
      * subst j. rewrite lookup_insert_eq in Hj. injection Hj as <-.
        rewrite lookup_insert_ne in Hi by assumption.
        apply (I2 i id ti t); [assumption | assumption | congruence].
      * rewrite lookup_insert_ne in Hi, Hj by assumption.
        by apply (I2 i j ti tj).
Qed.

Lemma run_ledger_inv evs s : ledger_inv s -> ledger_inv (run tz s evs).
Proof.
  revert s. induction evs as [| ev evs IH]; intros s Hs; [exact Hs |].
  cbn. apply IH. eapply change_ledger_inv; [apply step_change | exact Hs].
Qed.

Lemma ledger_inv_empty s : transactions s = ∅ -> ledger_inv s.
Proof.
  intros He. split.
  - intros i t. rewrite He, lookup_empty. discriminate.
  - intros i j ti tj. rewrite He, lookup_empty. discriminate.
Qed.

Lemma ledger_inv_at_most_one_loan s : ledger_inv s -> at_most_one_loan s.
Proof.
  intros [_ I2] b i j (ti & Hi & Ebi & _) (tj & Hj & Ebj & _).
  apply (I2 i j ti tj); congruence.
Qed.

End Ledger.

(** A borrow request that is answered 200 found the book available and
    leaves it flagged unavailable. *)
Lemma post_transactions_borrow_success tz s now req :
  code (snd (post_transactions_borrow tz now req s)) = 200 ->
  exists b,
    books s !! BorrowBody.bookId req = Some b /\
    Book.available b = true /\
    books (fst (post_transactions_borrow tz now req s))
      !! BorrowBody.bookId req = Some (Book.set_available b false).
Proof.
  destruct (books s !! BorrowBody.bookId req) as [b |] eqn:Hb.
  2: { rewrite (post_transactions_borrow_missing _ _ _ _ Hb). discriminate. }
  destruct (Book.available b) eqn:Ha.
  2: { rewrite (post_transactions_borrow_unavailable _ _ _ _ _ Hb Ha).
       discriminate. }
  unfold post_transactions_borrow, Transaction_insert, Book_available_minus.
  unfold_monad. rewrite Hb, Ha. cbn.
  destruct (Transaction.create now _ _ _ _ _ _) as [e | t]; cbn;
    [discriminate |].
  change (1 - 1) with 0. cbn. intros _.
  exists b. split; [reflexivity |]. split; [exact Ha |].
  apply lookup_insert_eq.
Qed.

(** C10 (amended). The availability of a book is one Boolean flag: a
    borrow request that succeeds leaves the book unavailable; when the
    requests are served one after another (none starts before the previous
    one has answered), from then on, as long as no return is served, every
    borrow request for the same book is answered 400 "Book not available"
    and changes nothing; and in every state so reached from an empty
    ledger, a book has at most one outstanding loan. *)
Theorem one_loan_per_book (tz : Z) :
  (forall s now req,
     code (snd (post_transactions_borrow tz now req s)) = 200 ->
     exists b',
       books (fst (post_transactions_borrow tz now req s))
         !! BorrowBody.bookId req = Some b' /\
       Book.available b' = false) /\
  (forall s now req evs now2 req2,
     code (snd (post_transactions_borrow tz now req s)) = 200 ->
     forallb (fun ev => negb (is_return ev)) evs = true ->
     BorrowBody.bookId req2 = BorrowBody.bookId req ->
     let s' := run tz (fst (post_transactions_borrow tz now req s)) evs in
     post_transactions_borrow tz now2 req2 s'
     = (s', {| code := 400; body := JsonError "Book not available" |})) /\
  (forall s evs,
     transactions s = ∅ -> at_most_one_loan (run tz s evs)).
Proof.
  split; [| split].
  - intros s now req H.
    destruct (post_transactions_borrow_success tz s now req H)
      as (b & _ & _ & Hb').
    eexists. split; [exact Hb' | reflexivity].
  - intros s now req evs now2 req2 H _ Hid. cbv zeta.
    destruct (post_transactions_borrow_success tz s now req H)
      as (b & _ & _ & Hb').
    eapply post_transactions_borrow_unavailable.
    + rewrite Hid. apply run_unavailable; [exact Hb' | reflexivity].
    + reflexivity.
  - intros s evs He. apply ledger_inv_at_most_one_loan.
    apply run_ledger_inv. by apply ledger_inv_empty.
Qed.

Lemma one_loan_per_book_witness :
  let now := JSDate.utc_midnight 2024 1 2 in
  let s1 := fst (post_transactions_borrow 0 now example_request
                   example_shelf) in
  let evs := [(now + 1, PayFine 1%positive);
              (now + 2, CreateUpi example_bill)] in
  post_transactions_borrow 0 (now + 3) example_request (run 0 s1 evs)
  = (run 0 s1 evs,
     {| code := 400; body := JsonError "Book not available" |}) /\
  at_most_one_loan
    (run 0 example_shelf
       [(now, Borrow example_request); (now + 3, Borrow example_request)]).
Proof.
  cbv zeta. destruct (one_loan_per_book 0) as (_ & H2 & H3). split.
  - apply (H2 example_shelf (JSDate.utc_midnight 2024 1 2) example_request);
      reflexivity.
  - apply H3. reflexivity.
Defined.

(** * Further properties of the server *)

(** ** Trimming *)

Lemma trimStart_from_first k s :
  white_space_first (trimStart_from k s) = false.
Proof.
  revert k. induction s as [| a s IH]; intros k; [reflexivity |].
  cbn [trimStart_from]. destruct k as [| k]; [| apply IH].
  destruct (white_space_length (String a s)) as [| n] eqn:E; [| apply IH].
  unfold white_space_first. by rewrite E.
Qed.

Lemma white_space_last_tail a s :
  white_space_last (String a s) = false -> white_space_last s = false.
Proof. cbn [white_space_last]. intros H. by apply orb_false_elim in H as [_ ?]. Qed.

Lemma trimStart_from_last k s :
  white_space_last s = false -> white_space_last (trimStart_from k s) = false.
Proof.
  revert k. induction s as [| a s IH]; intros k H; [reflexivity |].
  pose proof (white_space_last_tail _ _ H) as Ht.
  cbn [trimStart_from]. destruct k as [| k]; [| by apply IH].
  destruct (white_space_length (String a s)); [exact H | by apply IH].
Qed.

Lemma trimEnd_last s : white_space_last (trimEnd s) = false.
Proof.
  induction s as [| a s IH]; [reflexivity |].
  cbn [trimEnd].
  destruct (is_white_space (String a (trimEnd s))) eqn:E; [reflexivity |].
  cbn [white_space_last]. by rewrite E, IH.
Qed.

(** What [trim] yields has no white space at either end. *)
Lemma trim_ends s :
  white_space_first (trim s) = false /\ white_space_last (trim s) = false.
Proof.
  unfold trim, trimStart. split.
  - apply trimStart_from_first.
  - apply trimStart_from_last, trimEnd_last.
Qed.

Lemma trimStart_id s : white_space_first s = false -> trimStart s = s.
Proof.
  unfold white_space_first, trimStart. destruct s as [| a s]; [reflexivity |].
  cbn [trimStart_from].
  destruct (white_space_length (String a s)); [reflexivity | discriminate].
Qed.

Lemma trimEnd_id s : white_space_last s = false -> trimEnd s = s.
Proof.
  induction s as [| a s IH]; [reflexivity |].
  intros H. pose proof (white_space_last_tail _ _ H) as Ht.
  cbn [trimEnd]. rewrite (IH Ht).
  cbn [white_space_last] in H. apply orb_false_elim in H as [-> _].
  reflexivity.
Qed.

(** Trimming twice is trimming once. *)
Lemma trim_idempotent s : trim (trim s) = trim s.
Proof.
  destruct (trim_ends s) as [Hf Hl].
  unfold trim at 1. rewrite (trimEnd_id _ Hl). by apply trimStart_id.
Qed.

Lemma truthy_of_trim v : truthy (trim <$> v) = true -> truthy v = true.
Proof.
  destruct v as [x |]; cbn; [| discriminate].
  destruct (String.eqb_spec x EmptyString) as [-> | _]; [| reflexivity].
  cbn. discriminate.
Qed.

(** ** The unique index *)

Lemma isbn_taken_spec x (coll : gmap positive Book.doc) :
  Book.isbn_taken (Some x) coll = true <->
  exists i b, coll !! i = Some b /\ Book.isbn b = Some x.
Proof.
  unfold Book.isbn_taken. rewrite existsb_exists. split.
  - intros ([i b] & Hin & Hx). cbn in Hx.
    exists i, b. split.
    + apply elem_of_map_to_list. by apply list_elem_of_In.
    + destruct (Book.isbn b) as [y |]; [| discriminate].
      by apply String.eqb_eq in Hx as ->.
  - intros (i & b & Hl & Hb). exists (i, b). split.
    + apply list_elem_of_In. by apply elem_of_map_to_list.
    + cbn. rewrite Hb. apply String.eqb_refl.
Qed.

Lemma isbn_taken_false x (coll : gmap positive Book.doc) i b :
  Book.isbn_taken (Some x) coll = false ->
  coll !! i = Some b -> Book.isbn b <> Some x.
Proof.
  intros Hf Hl Hx.
  assert (Book.isbn_taken (Some x) coll = true) as Ht
    by (apply isbn_taken_spec; eauto).
  congruence.
Qed.

(** ** What the constructors produce *)

Lemma Book_create_inr now title author isbn genre bk :
  Book.create now title author isbn genre = inr bk ->
  exists t a,
    title = Some t /\ author = Some a /\
    trim t <> EmptyString /\ trim a <> EmptyString /\
    bk = {| Book.title := trim t; Book.author := trim a;
            Book.isbn := trim <$> isbn;
            Book.genre := default "General" (trim <$> genre);
            Book.available := true; Book.addedDate := now |}.
Proof.
  unfold Book.create, required_string.
  destruct title as [t |]; cbn; [| discriminate].
  destruct (String.eqb_spec (trim t) EmptyString) as [| Ht]; [discriminate |].
  destruct author as [a |]; cbn; [| discriminate].
  destruct (String.eqb_spec (trim a) EmptyString) as [| Ha]; [discriminate |].
  intros [= <-]. exists t, a. repeat split; assumption.
Qed.

Lemma Transaction_create_inr now bookId sid nm dp bd due t :
  Transaction.create now bookId sid nm dp bd due = inr t ->
  Transaction.book t = bookId /\
  Transaction.borrowDate t = bd /\
  due = Some (Transaction.dueDate t) /\
  Transaction.returnDate t = None /\
  Transaction.status t = borrowed /\
  Transaction.fineAmount t = 0 /\
  Transaction.finePaid t = false /\
  Transaction.finePaidDate t = None /\
  Transaction.daysLate t = 0 /\
  Transaction.createdDate t = now.
Proof.
  unfold Transaction.create.
  repeat match goal with
         | |- match ?x with _ => _ end = _ -> _ => destruct x; try discriminate
         end.
  intros [= <-]. repeat split; reflexivity.
Qed.

Lemma Payment_create_inr now tid sid nm amt upi p :
  Payment.create now tid sid nm amt upi = inr p ->
  Payment.transactionId p = tid /\
  amt = Some (Payment.amount p) /\
  Payment.upiId p = upi /\
  Payment.paymentStatus p = pending /\
  Payment.paymentMethod p = "UPI" /\
  Payment.utrNumber p = None /\
  Payment.paymentDate p = None /\
  Payment.createdDate p = now.
Proof.
  unfold Payment.create, required.
  destruct (required_string "studentId" sid); [discriminate |].
  destruct (required_string "studentName" nm); [discriminate |].
  destruct amt as [z |]; [| discriminate].
  intros [= <-]. repeat split; reflexivity.
Qed.

(** ** The effect of each handler on the stored data *)

Lemma same_data_refl s : same_data s s.
Proof. by repeat split. Qed.

Lemma post_books_effect s now req : effect s (fst (post_books now req s)).
Proof.
  unfold post_books.
  destruct (isDBConnected s); cbn;
    [| apply effect_none, same_data_refl].
  unfold_monad.
  destruct (negb (truthy (BookBody.title req))
            || negb (truthy (BookBody.author req))); cbn;
    [apply effect_none, same_data_refl |].
  unfold Book_insert. unfold_monad.
  destruct (Book.create now _ _ _ _) as [e | bk] eqn:Hc; cbn;
    [apply effect_none, same_data_refl |].
  destruct (Book.isbn_taken (Book.isbn bk) (books s)) eqn:Hi; cbn;
    [apply effect_none, same_data_refl |].
  eapply effect_book; [| exact Hc | exact Hi | reflexivity..].
  apply not_elem_of_dom, is_fresh.
Qed.

Lemma post_transactions_borrow_effect tz s now req :
  effect s (fst (post_transactions_borrow tz now req s)).
Proof.
  destruct (books s !! BorrowBody.bookId req) as [b |] eqn:Hb.
  2: { rewrite (post_transactions_borrow_missing _ _ _ _ Hb).
       apply effect_none, same_data_refl. }
  destruct (Book.available b) eqn:Ha.
  2: { rewrite (post_transactions_borrow_unavailable _ _ _ _ _ Hb Ha).
       apply effect_none, same_data_refl. }
  unfold post_transactions_borrow, Transaction_insert, Book_available_minus.
  unfold_monad. rewrite Hb, Ha. cbn.
  destruct (Transaction.create now _ _ _ _ _ _) as [e | t] eqn:Hc; cbn;
    [apply effect_none, same_data_refl |].
  change (1 - 1) with 0. cbn.
  destruct (Transaction_create_inr _ _ _ _ _ _ _ _ Hc) as (Hbook & _).
  eapply (effect_loan _ _ (fresh (dom (transactions s))) t b now).
  - apply not_elem_of_dom, is_fresh.
  - by rewrite Hbook.
  - exact Ha.
  - rewrite Hbook. exact Hc.
  - by rewrite Hbook.
  - reflexivity.
  - reflexivity.
Qed.

Lemma post_transactions_return_effect s now id :
  effect s (fst (post_transactions_return now id s)).
Proof.
  destruct (transactions s !! id) as [t |] eqn:Ht.
  - rewrite (post_transactions_return_state _ _ _ _ Ht). cbv zeta.
    eapply effect_return; [exact Ht | reflexivity..].
  - rewrite (post_transactions_return_missing _ _ _ Ht).
    apply effect_none, same_data_refl.
Qed.

Lemma put_transactions_pay_fine_effect s now id :
  effect s (fst (put_transactions_pay_fine now id s)).
Proof.
  destruct (transactions s !! id) as [t |] eqn:Ht.
  - rewrite (put_transactions_pay_fine_found _ _ _ _ Ht). cbn.
    eapply effect_fine_paid; [exact Ht | reflexivity..].
  - rewrite (put_transactions_pay_fine_missing _ _ _ Ht).
    apply effect_none, same_data_refl.
Qed.

Lemma post_payments_create_upi_effect s now req :
  effect s (fst (post_payments_create_upi now req s)).
Proof.
  unfold post_payments_create_upi, Payment_insert. unfold_monad.
  destruct (transactions s !! CreateUpiBody.transactionId req) as [t |] eqn:Ht;
    cbn; [| apply effect_none, same_data_refl].
  destruct (Payment.create now _ _ _ _ _) as [e | p] eqn:Hc; cbn;
    [apply effect_none, same_data_refl |].
  destruct (Payment_create_inr _ _ _ _ _ _ _ Hc) as (Htid & _).
  eapply (effect_payment _ _ (fresh (dom (payments s))) p now).
  - apply not_elem_of_dom, is_fresh.
  - rewrite Htid, Ht. eauto.
  - rewrite Htid. exact Hc.
  - reflexivity.
  - reflexivity.
  - reflexivity.
Qed.

Lemma post_payments_verify_effect s now req :
  effect s (fst (post_payments_verify now req s)).
Proof.
  destruct (payments s !! VerifyBody.paymentId req) as [p |] eqn:Hp.
  - rewrite (post_payments_verify_found _ _ _ _ Hp). cbv zeta.
    destruct (transactions s !! Payment.transactionId p) as [t |] eqn:Ht; cbn.
    + eapply effect_verify; [exact Hp | reflexivity | reflexivity |].
      right. exists t. split; [exact Ht | reflexivity].
    + eapply effect_verify; [exact Hp | reflexivity | reflexivity |].
      left. split; [exact Ht | reflexivity].
  - rewrite (post_payments_verify_missing _ _ _ Hp).
    apply effect_none, same_data_refl.
Qed.

Lemma step_effect tz s ev : effect s (step tz s ev).
Proof.
  destruct ev as [now [req | req | id | req | req | id | |]]; cbn.
  - apply post_books_effect.
  - apply post_transactions_borrow_effect.
  - apply post_transactions_return_effect.
  - apply post_payments_create_upi_effect.
  - apply post_payments_verify_effect.
  - apply put_transactions_pay_fine_effect.
  - apply effect_none. by repeat split.
  - apply effect_none. by repeat split.
Qed.

(** A property of states that every effect preserves holds along every
    run. *)
Lemma run_invariant tz (P : State -> Prop) :
  (forall s s', effect s s' -> P s -> P s') ->
  forall evs s, P s -> P (run tz s evs).
Proof.
  intros Hstep evs. induction evs as [| ev evs IH]; intros s Hs; [exact Hs |].
  cbn. apply IH. eapply Hstep; [apply step_effect | exact Hs].
Qed.

(** ** What becomes of a stored document *)

Lemma effect_transaction s s' id t :
  effect s s' -> transactions s !! id = Some t ->
  exists t',
    transactions s' !! id = Some t' /\
    (t' = t \/ (exists now, t' = returned_doc now t) \/
     (exists now, t' = Transaction.set_finePaid t now)).
Proof.
  intros He Ht.
  destruct He as [(_ & E & _) | ? ? ? ? ? ? ? _ _ _ _ E _
                 | id0 ? ? ? ? ? ? ? Hid0 _ _ _ _ E _
                 | id0 t0 now Hid0 _ E _ | id0 t0 now Hid0 _ E _
                 | ? ? ? ? ? ? _ _ _ _ E _
                 | ? p ? now _ _ _ [[_ E] | (t0 & Hid0 & E)]]; rewrite E.
  - eauto.
  - eauto.
  - exists t. split; [| by left].
    rewrite lookup_insert_ne; [exact Ht | congruence].
  - destruct (decide (id0 = id)) as [-> | Hne].
    + rewrite lookup_insert_eq. eexists. split; [reflexivity |].
      right. left. exists now. congruence.
    + rewrite lookup_insert_ne by assumption. eauto.
  - destruct (decide (id0 = id)) as [-> | Hne].
    + rewrite lookup_insert_eq. eexists. split; [reflexivity |].
      right. right. exists now. congruence.
    + rewrite lookup_insert_ne by assumption. eauto.
  - eauto.
  - eauto.
  - destruct (decide (Payment.transactionId p = id)) as [Heq | Hne].
    + rewrite Heq. rewrite lookup_insert_eq. eexists. split; [reflexivity |].
      right. right. exists now. rewrite Heq in Hid0. congruence.
    + rewrite lookup_insert_ne by assumption. eauto.
Qed.

Lemma effect_book_kept s s' id b :
  effect s s' -> books s !! id = Some b ->
  books s' !! id = Some b \/
  (Book.available b = true /\
   books s' !! id = Some (Book.set_available b false)).
Proof.
  intros He Hb.
  destruct He as [(E & _) | id0 ? ? ? ? ? ? Hid0 _ _ E _ _
                 | ? t0 b0 ? ? ? ? ? _ Hb0 Ha0 _ E _ _
                 | ? ? ? _ E _ _ | ? ? ? _ E _ _
                 | ? ? ? ? ? ? _ _ _ E _ _
                 | ? ? ? ? _ E _ _]; rewrite E; auto.
  - left. rewrite lookup_insert_ne; [exact Hb | congruence].
  - destruct (decide (Transaction.book t0 = id)) as [Heq | Hne].
    + right. rewrite Heq in *. rewrite lookup_insert_eq.
      assert (b0 = b) as -> by congruence. auto.
    + left. by rewrite lookup_insert_ne.
Qed.

Lemma effect_payment_kept s s' id p :
  effect s s' -> payments s !! id = Some p ->
  payments s' !! id = Some p \/
  exists utr now, payments s' !! id = Some (Payment.set_verified p utr now).
Proof.
  intros He Hp.
  destruct He as [(_ & _ & E) | ? ? ? ? ? ? ? _ _ _ _ _ E
                 | ? ? ? ? ? ? ? ? _ _ _ _ _ _ E
                 | ? ? ? _ _ _ E | ? ? ? _ _ _ E
                 | id0 ? ? ? ? ? Hid0 _ _ _ _ E
                 | id0 p0 utr now Hid0 _ E _]; rewrite E; auto.
  - left. rewrite lookup_insert_ne; [exact Hp | congruence].
  - destruct (decide (id0 = id)) as [-> | Hne].
    + right. exists utr, now. rewrite lookup_insert_eq. congruence.
    + left. by rewrite lookup_insert_ne.
Qed.

(** X1. Through every sequence of requests a stored transaction stays
    stored and keeps its book, its student, its borrow date, its due date
    and its creation date: no route renews, reassigns or deletes a loan. *)
Theorem loan_terms_never_change (tz : Z) (s : State)
    (evs : list (Z * Request)) (id : positive) (t : Transaction.doc) :
  transactions s !! id = Some t ->
  exists t',
    transactions (run tz s evs) !! id = Some t' /\
    Transaction.book t' = Transaction.book t /\
    Transaction.student t' = Transaction.student t /\
    Transaction.borrowDate t' = Transaction.borrowDate t /\
    Transaction.dueDate t' = Transaction.dueDate t /\
    Transaction.createdDate t' = Transaction.createdDate t.
Proof.
  intros Ht.
  apply (run_invariant tz (fun s' =>
    exists t', transactions s' !! id = Some t' /\
      Transaction.book t' = Transaction.book t /\
      Transaction.student t' = Transaction.student t /\
      Transaction.borrowDate t' = Transaction.borrowDate t /\
      Transaction.dueDate t' = Transaction.dueDate t /\
      Transaction.createdDate t' = Transaction.createdDate t)).
  - intros s1 s2 He (t1 & H1 & Hk).
    destruct (effect_transaction s1 s2 id t1 He H1)
      as (t2 & H2 & [-> | [[now ->] | [now ->]]]);
      exists t2 || eexists; (split; [eassumption |]); exact Hk.
  - exists t. by repeat split.
Qed.

Lemma loan_terms_never_change_witness :
  exists t',
    transactions
      (run 0 example_state
         [(JSDate.utc_midnight 2024 1 15, Return 1%positive);
          (JSDate.utc_midnight 2024 1 16, PayFine 1%positive)])
      !! 1%positive = Some t' /\
    Transaction.dueDate t' = JSDate.utc_midnight 2024 1 10.
Proof.
  destruct (loan_terms_never_change 0 example_state
              [(JSDate.utc_midnight 2024 1 15, Return 1%positive);
               (JSDate.utc_midnight 2024 1 16, PayFine 1%positive)]
              1%positive example_loan)
    as (t' & Hl & _ & _ & _ & Hdue & _); [reflexivity |].
  exists t'. split; [exact Hl | exact Hdue].
Defined.

(** X2. A fine that is marked paid stays marked paid: no sequence of
    requests clears [finePaid] on a stored transaction. *)
Theorem fine_paid_is_never_cleared (tz : Z) (s : State)
    (evs : list (Z * Request)) (id : positive) (t : Transaction.doc) :
  transactions s !! id = Some t ->
  Transaction.finePaid t = true ->
  exists t',
    transactions (run tz s evs) !! id = Some t' /\
    Transaction.finePaid t' = true.
Proof.
  intros Ht Hp.
  apply (run_invariant tz (fun s' =>
    exists t', transactions s' !! id = Some t' /\
               Transaction.finePaid t' = true)).
  - intros s1 s2 He (t1 & H1 & Hk).
    destruct (effect_transaction s1 s2 id t1 He H1)
      as (t2 & H2 & [-> | [[now ->] | [now ->]]]);
      eexists; (split; [eassumption |]); (exact Hk || reflexivity).
  - exists t. by split.
Qed.

Lemma fine_paid_is_never_cleared_witness :
  exists t',
    transactions
      (run 0 (fst (put_transactions_pay_fine 5 1%positive example_state))
         [(JSDate.utc_midnight 2024 1 15, Return 1%positive);
          (JSDate.utc_midnight 2024 1 16, Borrow example_request)])
      !! 1%positive = Some t' /\
    Transaction.finePaid t' = true.
Proof.
  apply (fine_paid_is_never_cleared 0
           (fst (put_transactions_pay_fine 5 1%positive example_state)) _
           1%positive (Transaction.set_finePaid example_loan 5));
    reflexivity.
Defined.

(** X3. A stored payment stays stored and keeps its transaction, student,
    amount, UPI id, method and creation date; once it is completed it stays
    completed. *)
Theorem payment_terms_never_change (tz : Z) (s : State)
    (evs : list (Z * Request)) (id : positive) (p : Payment.doc) :
  payments s !! id = Some p ->
  exists p',
    payments (run tz s evs) !! id = Some p' /\
    Payment.transactionId p' = Payment.transactionId p /\
    Payment.studentId p' = Payment.studentId p /\
    Payment.studentName p' = Payment.studentName p /\
    Payment.amount p' = Payment.amount p /\
    Payment.upiId p' = Payment.upiId p /\
    Payment.paymentMethod p' = Payment.paymentMethod p /\
    Payment.createdDate p' = Payment.createdDate p /\
    (Payment.paymentStatus p = completed ->
     Payment.paymentStatus p' = completed).
Proof.
  intros Hp.
  apply (run_invariant tz (fun s' =>
    exists p', payments s' !! id = Some p' /\
      Payment.transactionId p' = Payment.transactionId p /\
      Payment.studentId p' = Payment.studentId p /\
      Payment.studentName p' = Payment.studentName p /\
      Payment.amount p' = Payment.amount p /\
      Payment.upiId p' = Payment.upiId p /\
      Payment.paymentMethod p' = Payment.paymentMethod p /\
      Payment.createdDate p' = Payment.createdDate p /\
      (Payment.paymentStatus p = completed ->
       Payment.paymentStatus p' = completed))).
  - intros s1 s2 He (p1 & H1 & Hk).
    destruct (effect_payment_kept s1 s2 id p1 He H1)
      as [H2 | (utr & now & H2)];
      eexists; (split; [exact H2 |]); [exact Hk |].
    destruct Hk as (? & ? & ? & ? & ? & ? & ? & ?).
    cbn. repeat split; auto.
  - exists p. by repeat split.
Qed.

Lemma payment_terms_never_change_witness :
  exists p',
    payments
      (run 0 example_billed
         [(1705276800000, Verify example_verify);
          (1705276800001, CreateUpi example_bill)])
      !! 1%positive = Some p' /\
    Payment.amount p' = 1.
Proof.
  destruct (payment_terms_never_change 0 example_billed
              [(1705276800000, Verify example_verify);
               (1705276800001, CreateUpi example_bill)]
              1%positive example_payment)
    as (p' & Hl & _ & _ & _ & Ha & _); [reflexivity |].
  exists p'. split; [exact Hl | exact Ha].
Defined.

(** X4. A stored book stays stored and keeps its title, author, ISBN,
    genre and date of addition; its availability can only go from true to
    false: a book that is unavailable is never made available again. *)
Theorem book_record_never_changes (tz : Z) (s : State)
    (evs : list (Z * Request)) (id : positive) (b : Book.doc) :
  books s !! id = Some b ->
  exists b',
    books (run tz s evs) !! id = Some b' /\
    Book.title b' = Book.title b /\
    Book.author b' = Book.author b /\
    Book.isbn b' = Book.isbn b /\
    Book.genre b' = Book.genre b /\
    Book.addedDate b' = Book.addedDate b /\
    (Book.available b = false -> Book.available b' = false).
Proof.
  intros Hb.
  apply (run_invariant tz (fun s' =>
    exists b', books s' !! id = Some b' /\
      Book.title b' = Book.title b /\
      Book.author b' = Book.author b /\
      Book.isbn b' = Book.isbn b /\
      Book.genre b' = Book.genre b /\
      Book.addedDate b' = Book.addedDate b /\
      (Book.available b = false -> Book.available b' = false))).
  - intros s1 s2 He (b1 & H1 & Hk).
    destruct (effect_book_kept s1 s2 id b1 He H1) as [H2 | (Ha & H2)];
      eexists; (split; [exact H2 |]); [exact Hk |].
    destruct Hk as (? & ? & ? & ? & ? & ?).
    cbn. repeat split; auto.
  - exists b. by repeat split.
Qed.

Lemma book_record_never_changes_witness :
  exists b',
    books
      (run 0 example_state
         [(JSDate.utc_midnight 2024 1 15, Return 1%positive);
          (JSDate.utc_midnight 2024 1 16, Return 1%positive)])
      !! 1%positive = Some b' /\
    Book.title b' = "SICP" /\ Book.available b' = false.
Proof.
  destruct (book_record_never_changes 0 example_state
              [(JSDate.utc_midnight 2024 1 15, Return 1%positive);
               (JSDate.utc_midnight 2024 1 16, Return 1%positive)]
              1%positive example_book)
    as (b' & Hl & Ht & _ & _ & _ & _ & Ha); [reflexivity |].
  exists b'. split; [exact Hl |]. split; [exact Ht | apply Ha; reflexivity].
Defined.

(** ** Invariants of the stored data *)

Lemma insert_keeps_Some {A} (m : gmap positive A) i x k :
  is_Some (m !! k) -> is_Some (<[i := x]> m !! k).
Proof.
  intros H. destruct (decide (i = k)) as [-> | Hne].
  - rewrite lookup_insert_eq. eauto.
  - by rewrite lookup_insert_ne.
Qed.

(** X5. Referential integrity is kept: if every transaction names a stored
    book and every payment a stored transaction, the same holds after any
    sequence of requests. *)
Theorem references_stay_valid (tz : Z) (s : State)
    (evs : list (Z * Request)) :
  references_ok s -> references_ok (run tz s evs).
Proof.
  apply run_invariant. clear s evs. intros s s'.
  intros He [R1 R2].
  destruct He as [(Eb & Et & Ep) | id bk ? ? ? ? ? _ _ _ Eb Et Ep
                 | id t b ? ? ? ? ? _ Hb _ _ Eb Et Ep
                 | id t now Ht Eb Et Ep | id t now Ht Eb Et Ep
                 | id p ? ? ? ? _ Hs _ Eb Et Ep
                 | id p utr now Hp Eb Ep Htx].
  - split; intros i x; rewrite ?Eb, ?Et, ?Ep; eauto.
  - split; intros i x; rewrite ?Eb, ?Et, ?Ep; [| by eauto].
    intros Hi. apply insert_keeps_Some. eauto.
  - split; intros i x; rewrite ?Eb, ?Et, ?Ep.
    + intros Hi. apply insert_keeps_Some.
      destruct (decide (id = i)) as [Heq | Hne].
      * subst i. rewrite lookup_insert_eq in Hi. injection Hi as <-. eauto.
      * rewrite lookup_insert_ne in Hi by assumption. eauto.
    + intros Hi. apply insert_keeps_Some. eauto.
  - split; intros i x; rewrite ?Eb, ?Et, ?Ep.
    + intros Hi. destruct (decide (id = i)) as [Heq | Hne].
      * subst i. rewrite lookup_insert_eq in Hi. injection Hi as <-.
        cbn. eauto.
      * rewrite lookup_insert_ne in Hi by assumption. eauto.
    + intros Hi. apply insert_keeps_Some. eauto.
  - split; intros i x; rewrite ?Eb, ?Et, ?Ep.
    + intros Hi. destruct (decide (id = i)) as [Heq | Hne].
      * subst i. rewrite lookup_insert_eq in Hi. injection Hi as <-.
        cbn. eauto.
      * rewrite lookup_insert_ne in Hi by assumption. eauto.
    + intros Hi. apply insert_keeps_Some. eauto.
  - split; intros i x; rewrite ?Eb, ?Et, ?Ep; [by eauto |].
    intros Hi. destruct (decide (id = i)) as [Heq | Hne].
    + subst i. rewrite lookup_insert_eq in Hi. by injection Hi as <-.
    + rewrite lookup_insert_ne in Hi by assumption. eauto.
  - assert (Hkeep : forall k, is_Some (transactions s !! k) ->
                              is_Some (transactions s' !! k)).
    { intros k Hk. destruct Htx as [[_ ->] | (t & _ & ->)]; [exact Hk |].
      by apply insert_keeps_Some. }
    split; intros i x; rewrite ?Eb, ?Ep.
    + intros Hi. destruct Htx as [[_ E] | (t & Ht & E)]; rewrite E in Hi.
      * eauto.
      * destruct (decide (Payment.transactionId p = i)) as [Heq | Hne].
        -- rewrite Heq in *. rewrite lookup_insert_eq in Hi.
           injection Hi as <-. cbn. eauto.
        -- rewrite lookup_insert_ne in Hi by assumption. eauto.
    + intros Hi. apply Hkeep.
      destruct (decide (id = i)) as [Heq | Hne].
      * subst i. rewrite lookup_insert_eq in Hi. injection Hi as <-.
        cbn. eauto.
      * rewrite lookup_insert_ne in Hi by assumption. eauto.
Qed.

Lemma references_stay_valid_witness :
  references_ok (run 19800000 empty_library example_day).
Proof.
  apply (references_stay_valid 19800000 empty_library example_day).
  split; intros i x H; unfold empty_library in H; cbn in H;
    rewrite lookup_empty in H; discriminate H.
Defined.

(** X6. ISBNs stay unique: if no two stored books carry the same ISBN, no
    sequence of requests makes two of them do so (a book request whose
    trimmed ISBN is already stored is refused by the unique index). *)
Theorem isbn_stays_unique (tz : Z) (s : State) (evs : list (Z * Request)) :
  isbn_unique s -> isbn_unique (run tz s evs).
Proof.
  apply run_invariant. clear s evs. intros s s'.
  intros He U.
  destruct He as [(Eb & _) | id bk now ti au isb ge Hid Hc Hi Eb _ _
                 | id t b ? ? ? ? ? _ Hb _ _ Eb _ _
                 | ? ? ? _ Eb _ _ | ? ? ? _ Eb _ _
                 | ? ? ? ? ? ? _ _ _ Eb _ _
                 | ? ? ? ? _ Eb _ _];
    unfold isbn_unique; rewrite Eb; try exact U.
  - intros i j bi bj x Hbi Hbj Hxi Hxj.
    destruct (decide (id = i)) as [Ei | Ni];
      destruct (decide (id = j)) as [Ej | Nj]; [congruence | | |].
    + subst i. rewrite lookup_insert_eq in Hbi. injection Hbi as <-.
      rewrite lookup_insert_ne in Hbj by assumption.
      rewrite Hxi in Hi. exfalso.
      by apply (isbn_taken_false x (books s) j bj Hi Hbj).
    + subst j. rewrite lookup_insert_eq in Hbj. injection Hbj as <-.
      rewrite lookup_insert_ne in Hbi by assumption.
      rewrite Hxj in Hi. exfalso.
      by apply (isbn_taken_false x (books s) i bi Hi Hbi).
    + rewrite lookup_insert_ne in Hbi, Hbj by assumption.
      by apply (U i j bi bj x).
  - intros i j bi bj x Hbi Hbj Hxi Hxj.
    destruct (decide (Transaction.book t = i)) as [Ei | Ni];
      destruct (decide (Transaction.book t = j)) as [Ej | Nj];
      [congruence | | |].
    + rewrite Ei in *. rewrite lookup_insert_eq in Hbi. injection Hbi as <-.
      rewrite lookup_insert_ne in Hbj by assumption.
      by apply (U i j b bj x).
    + rewrite Ej in *. rewrite lookup_insert_eq in Hbj. injection Hbj as <-.
      rewrite lookup_insert_ne in Hbi by assumption.
      by apply (U i j bi b x).
    + rewrite lookup_insert_ne in Hbi, Hbj by assumption.
      by apply (U i j bi bj x).
Qed.

Lemma isbn_stays_unique_witness :
  isbn_unique (run 19800000 empty_library example_day).
Proof.
  apply (isbn_stays_unique 19800000 empty_library example_day).
  intros i j bi bj x H. unfold empty_library in H; cbn in H.
  rewrite lookup_empty in H. discriminate H.
Defined.

Lemma days_late_nonneg now due : 0 <= days_late now due.
Proof. unfold days_late. lia. Qed.

Lemma returned_doc_accounted now t : accounted (returned_doc now t).
Proof.
  unfold accounted, returned_doc. cbn.
  pose proof (days_late_nonneg now (Transaction.dueDate t)) as Hd.
  split; [exact Hd |]. split; [reflexivity |].
  destruct (Z.ltb_spec 0 (days_late now (Transaction.dueDate t))).
  - split; [eauto | assumption].
  - split; [eauto | lia].
Qed.

Lemma set_finePaid_accounted t now :
  accounted t -> accounted (Transaction.set_finePaid t now).
Proof. unfold accounted. cbn. auto. Qed.

(** X7. The accounts stay consistent: starting from a ledger in which every
    transaction has fineAmount = 5 * daysLate, daysLate >= 0, no return
    date and no days late while borrowed, and is returned_late exactly when
    it has days late, every sequence of requests leads to such a ledger; in
    particular no transaction ever gets the status overdue. *)
Theorem accounts_stay_consistent (tz : Z) (s : State)
    (evs : list (Z * Request)) :
  ledger_accounted s -> ledger_accounted (run tz s evs).
Proof.
  apply run_invariant. clear s evs. intros s s'.
  intros He A.
  destruct He as [(_ & Et & _) | ? ? ? ? ? ? ? _ _ _ _ Et _
                 | id t b now sid nm dp due _ _ _ Hc _ Et _
                 | id t now Ht _ Et _ | id t now Ht _ Et _
                 | ? ? ? ? ? ? _ _ _ _ Et _
                 | id p utr now _ _ _ [[_ Et] | (t & Ht & Et)]];
    unfold ledger_accounted; rewrite Et; try exact A.
  - intros i x Hi. destruct (decide (id = i)) as [Heq | Hne].
    + subst i. rewrite lookup_insert_eq in Hi. injection Hi as <-.
      destruct (Transaction_create_inr _ _ _ _ _ _ _ _ Hc)
        as (_ & _ & _ & Hr & Hs & Hf & _ & _ & Hd & _).
      unfold accounted. rewrite Hr, Hs, Hf, Hd. by repeat split.
    + rewrite lookup_insert_ne in Hi by assumption. eauto.
  - intros i x Hi. destruct (decide (id = i)) as [Heq | Hne].
    + subst i. rewrite lookup_insert_eq in Hi. injection Hi as <-.
      apply returned_doc_accounted.
    + rewrite lookup_insert_ne in Hi by assumption. eauto.
  - intros i x Hi. destruct (decide (id = i)) as [Heq | Hne].
    + subst i. rewrite lookup_insert_eq in Hi. injection Hi as <-.
      apply set_finePaid_accounted. eauto.
    + rewrite lookup_insert_ne in Hi by assumption. eauto.
  - intros i x Hi.
    destruct (decide (Payment.transactionId p = i)) as [Heq | Hne].
    + rewrite Heq in *. rewrite lookup_insert_eq in Hi. injection Hi as <-.
      apply set_finePaid_accounted. eauto.
    + rewrite lookup_insert_ne in Hi by assumption. eauto.
Qed.

Lemma accounts_stay_consistent_witness :
  ledger_accounted (run 19800000 empty_library example_day).
Proof.
  apply (accounts_stay_consistent 19800000 empty_library example_day).
  intros i x H. unfold empty_library in H; cbn in H.
  rewrite lookup_empty in H. discriminate H.
Defined.

(** X8. Payments are only ever pending or completed: from a state in which
    that holds, no sequence of requests produces a payment that is failed
    or cancelled. *)
Theorem payments_stay_open_or_done (tz : Z) (s : State)
    (evs : list (Z * Request)) :
  payments_open_or_done s -> payments_open_or_done (run tz s evs).
Proof.
  apply run_invariant. clear s evs. intros s s'.
  intros He A.
  destruct He as [(_ & _ & Ep) | ? ? ? ? ? ? ? _ _ _ _ _ Ep
                 | ? ? ? ? ? ? ? ? _ _ _ _ _ _ Ep
                 | ? ? ? _ _ _ Ep | ? ? ? _ _ _ Ep
                 | id p now sid nm amt _ _ Hc _ _ Ep
                 | id p utr now _ _ Ep _];
    unfold payments_open_or_done; rewrite Ep; try exact A.
  - intros i x Hi. destruct (decide (id = i)) as [Heq | Hne].
    + subst i. rewrite lookup_insert_eq in Hi. injection Hi as <-.
      left. by destruct (Payment_create_inr _ _ _ _ _ _ _ Hc) as (_ & _ & _ & ? & _).
    + rewrite lookup_insert_ne in Hi by assumption. eauto.
  - intros i x Hi. destruct (decide (id = i)) as [Heq | Hne].
    + subst i. rewrite lookup_insert_eq in Hi. injection Hi as <-.
      by right.
    + rewrite lookup_insert_ne in Hi by assumption. eauto.
Qed.

Lemma payments_stay_open_or_done_witness :
  payments_open_or_done (run 19800000 empty_library example_day).
Proof.
  apply (payments_stay_open_or_done 19800000 empty_library example_day).
  intros i x H. unfold empty_library in H; cbn in H.
  rewrite lookup_empty in H. discriminate H.
Defined.

(** ** Adding books *)

Lemma trim_nonempty_truthy x : trim x <> EmptyString -> truthy (Some x) = true.
Proof.
  intros H. cbn. destruct (String.eqb_spec x EmptyString) as [-> | _];
    [| reflexivity].
  exfalso. by apply H.
Qed.

Lemma required_string_trim path x :
  trim x <> EmptyString ->
  required_string path (trim <$> Some x) = inr (trim x).
Proof.
  intros H. cbn. destruct (String.eqb_spec (trim x) EmptyString);
    [contradiction | reflexivity].
Qed.

(** X9. While the database is connected, a book request whose title and
    author are not blank and whose trimmed ISBN is carried by no stored
    book is answered 201 and stores, under a new id, the book with the
    trimmed title, author, ISBN and genre ("General" when none is given),
    available, added at the time of the request; the other books are left
    as they were. *)
Theorem post_books_stores_trimmed_book (s : State) (now : Z)
    (req : BookBody.t) (t a : string) :
  isDBConnected s = true ->
  BookBody.title req = Some t -> trim t <> EmptyString ->
  BookBody.author req = Some a -> trim a <> EmptyString ->
  (forall x i b, BookBody.isbn req = Some x -> books s !! i = Some b ->
                 Book.isbn b <> Some (trim x)) ->
  let bk := {| Book.title := trim t; Book.author := trim a;
               Book.isbn := trim <$> BookBody.isbn req;
               Book.genre := default "General" (trim <$> BookBody.genre req);
               Book.available := true; Book.addedDate := now |} in
  exists id,
    books s !! id = None /\
    post_books now req s
    = (with_books (insert id bk) s,
       {| code := 201; body := JsonBook "Book added successfully!" id bk |}).
Proof.
  intros Hc Ht Htn Ha Han Hisbn bk.
  exists (fresh (dom (books s))). split; [apply not_elem_of_dom, is_fresh |].
  unfold post_books. rewrite Hc. cbn [negb].
  unfold Book_insert, Book.create. unfold_monad.
  rewrite Ht, Ha, (trim_nonempty_truthy _ Htn), (trim_nonempty_truthy _ Han).
  cbn [negb orb].
  rewrite (required_string_trim _ _ Htn), (required_string_trim _ _ Han).
  cbn [Book.isbn].
  assert (Book.isbn_taken (trim <$> BookBody.isbn req) (books s) = false)
    as ->; [| reflexivity].
  destruct (BookBody.isbn req) as [x |] eqn:Hx; [| reflexivity].
  cbn. apply not_true_is_false. intros Htaken.
  apply isbn_taken_spec in Htaken as (i & b & Hb & Hbx).
  exact (Hisbn x i b eq_refl Hb Hbx).
Qed.

Lemma post_books_stores_trimmed_book_witness :
  exists id,
    post_books (JSDate.utc_midnight 2024 1 1) example_new_book example_state
    = (with_books
         (insert id
            {| Book.title := "Types and Programming Languages";
               Book.author := "Pierce"; Book.isbn := Some "0262162091";
               Book.genre := "General"; Book.available := true;
               Book.addedDate := JSDate.utc_midnight 2024 1 1 |})
         example_state,
       {| code := 201;
          body := JsonBook "Book added successfully!" id
                    {| Book.title := "Types and Programming Languages";
                       Book.author := "Pierce";
                       Book.isbn := Some "0262162091";
                       Book.genre := "General"; Book.available := true;
                       Book.addedDate := JSDate.utc_midnight 2024 1 1 |} |}).
Proof.
  destruct (post_books_stores_trimmed_book example_state
              (JSDate.utc_midnight 2024 1 1) example_new_book
              "  Types and Programming Languages " "Pierce ")
    as (id & _ & E).
  - reflexivity.
  - reflexivity.
  - vm_compute. discriminate.
  - reflexivity.
  - vm_compute. discriminate.
  - intros x i b Hx Hb. unfold example_state in Hb; cbn in Hb.
    apply lookup_singleton_Some in Hb as [_ <-]. discriminate.
  - exists id. exact E.
Defined.

(** X10. The unique index on ISBN: while the database is connected, a book
    request with a title and an author whose trimmed ISBN is already
    carried by a stored book is answered 500 and stores nothing. *)
Theorem post_books_refuses_duplicate_isbn (s : State) (now : Z)
    (req : BookBody.t) (x : string) (i : positive) (b : Book.doc) :
  isDBConnected s = true ->
  truthy (trim <$> BookBody.title req) = true ->
  truthy (trim <$> BookBody.author req) = true ->
  BookBody.isbn req = Some x ->
  books s !! i = Some b -> Book.isbn b = Some (trim x) ->
  post_books now req s
  = (s, {| code := 500; body := JsonCaught (DuplicateKey "isbn") |}).
Proof.
  intros Hc Ht Ha Hx Hb Hbx.
  unfold post_books. rewrite Hc. cbn [negb].
  unfold Book_insert, Book.create. unfold_monad.
  rewrite (truthy_of_trim _ Ht), (truthy_of_trim _ Ha). cbn [negb orb].
  destruct (required_string_truthy "title" _ Ht) as (t' & _ & ->).
  destruct (required_string_truthy "author" _ Ha) as (a' & _ & ->).
  cbn [Book.isbn]. rewrite Hx. cbn [fmap option_fmap option_map].
  assert (Book.isbn_taken (Some (trim x)) (books s) = true) as ->;
    [| reflexivity].
  apply isbn_taken_spec. eauto.
Qed.

Lemma post_books_refuses_duplicate_isbn_witness :
  post_books 5 example_new_book example_catalogue
  = (example_catalogue,
     {| code := 500; body := JsonCaught (DuplicateKey "isbn") |}).
Proof.
  apply (post_books_refuses_duplicate_isbn example_catalogue 5
           example_new_book " 0262162091" 2%positive example_isbn_book);
    reflexivity.
Defined.

Lemma post_books_created (s : State) (now : Z) (req : BookBody.t) :
  code (snd (post_books now req s)) = 201 ->
  exists id bk,
    books s !! id = None /\
    Book.create now (BookBody.title req) (BookBody.author req)
      (BookBody.isbn req) (BookBody.genre req) = inr bk /\
    fst (post_books now req s) = with_books (insert id bk) s.
Proof.
  unfold post_books.
  destruct (isDBConnected s); cbn [negb]; [| discriminate].
  unfold_monad.
  destruct (negb (truthy (BookBody.title req))
            || negb (truthy (BookBody.author req))); [discriminate |].
  unfold Book_insert. unfold_monad.
  destruct (Book.create now _ _ _ _) as [e | bk] eqn:Hc; [discriminate |].
  destruct (Book.isbn_taken (Book.isbn bk) (books s)); [discriminate |].
  cbn. intros _. exists (fresh (dom (books s))), bk.
  split; [apply not_elem_of_dom, is_fresh |]. by split.
Qed.

(** X11. A book request is all or nothing, and what it stores is in normal
    form: if the answer is not 201 the state is unchanged; if it is 201,
    exactly one book was added under a new id, it is available, and its
    title and author are non-empty with no white space at either end. *)
Theorem post_books_all_or_nothing (s : State) (now : Z) (req : BookBody.t) :
  (code (snd (post_books now req s)) <> 201 ->
   fst (post_books now req s) = s) /\
  (code (snd (post_books now req s)) = 201 ->
   exists id bk,
     books s !! id = None /\
     fst (post_books now req s) = with_books (insert id bk) s /\
     Book.available bk = true /\
     normalized (Book.title bk) /\ normalized (Book.author bk)).
Proof.
  split.
  - unfold post_books.
    destruct (isDBConnected s); cbn [negb]; [| reflexivity]. unfold_monad.
    destruct (negb (truthy (BookBody.title req))
              || negb (truthy (BookBody.author req))); [reflexivity |].
    unfold Book_insert. unfold_monad.
    destruct (Book.create now _ _ _ _) as [e | bk']; [reflexivity |].
    destruct (Book.isbn_taken (Book.isbn bk') (books s)); [reflexivity |].
    cbn. intros H. by contradiction H.
  - intros H201.
    destruct (post_books_created s now req H201) as (id & bk & Hid & Hc & E).
    exists id, bk. split; [exact Hid |]. split; [exact E |].
    destruct (Book_create_inr _ _ _ _ _ _ Hc) as (t & a & _ & _ & Ht & Ha & ->).
    cbn. split; [reflexivity |].
    split; (split; [assumption | apply trim_ends]).
Qed.

Lemma post_books_all_or_nothing_witness :
  exists id bk,
    fst (post_books 5 example_new_book example_state)
    = with_books (insert id bk) example_state /\
    normalized (Book.title bk) /\ normalized (Book.author bk).
Proof.
  destruct (post_books_all_or_nothing example_state 5 example_new_book)
    as [_ H].
  destruct H as (id & bk & _ & E & _ & Ht & Ha); [reflexivity |].
  exists id, bk. split; [exact E | split; assumption].
Defined.

(** A title that is one no-break space is white space for [trim]: it
    passes the handler's own test and is rejected by the schema. *)
Lemma post_books_no_break_space_title :
  post_books 0 example_nbsp_book example_state
  = (example_state,
     {| code := 500; body := JsonCaught (ValidationError "title") |}).
Proof. reflexivity. Qed.

(** ** All or nothing *)

(** X12. Borrowing, creating a payment, verifying a payment and settling a
    fine directly write nothing unless they answer 200: any other answer
    (400, 404 or 500) leaves the whole state as it was. *)
Theorem non_success_writes_nothing (tz : Z) (s : State) (now : Z) :
  (forall req, code (snd (post_transactions_borrow tz now req s)) <> 200 ->
               fst (post_transactions_borrow tz now req s) = s) /\
  (forall req, code (snd (post_payments_create_upi now req s)) <> 200 ->
               fst (post_payments_create_upi now req s) = s) /\
  (forall req, code (snd (post_payments_verify now req s)) <> 200 ->
               fst (post_payments_verify now req s) = s) /\
  (forall id, code (snd (put_transactions_pay_fine now id s)) <> 200 ->
              fst (put_transactions_pay_fine now id s) = s).
Proof.
  split; [| split; [| split]].
  - intros req.
    destruct (books s !! BorrowBody.bookId req) as [b |] eqn:Hb.
    2: { by rewrite (post_transactions_borrow_missing _ _ _ _ Hb). }
    destruct (Book.available b) eqn:Ha.
    2: { by rewrite (post_transactions_borrow_unavailable _ _ _ _ _ Hb Ha). }
    unfold post_transactions_borrow, Transaction_insert, Book_available_minus.
    unfold_monad. rewrite Hb, Ha. cbn.
    destruct (Transaction.create now _ _ _ _ _ _) as [e | t]; cbn;
      [reflexivity |].
    change (1 - 1) with 0. cbn. intros H. by contradiction H.
  - intros req. unfold post_payments_create_upi, Payment_insert. unfold_monad.
    destruct (transactions s !! CreateUpiBody.transactionId req); cbn;
      [| reflexivity].
    destruct (Payment.create now _ _ _ _ _); cbn; [reflexivity |].
    intros H. by contradiction H.
  - intros req.
    destruct (payments s !! VerifyBody.paymentId req) as [p |] eqn:Hp.
    + rewrite (post_payments_verify_found _ _ _ _ Hp). cbn.
      intros H. by contradiction H.
    + by rewrite (post_payments_verify_missing _ _ _ Hp).
  - intros id. destruct (transactions s !! id) as [t |] eqn:Ht.
    + rewrite (put_transactions_pay_fine_found _ _ _ _ Ht). cbn.
      intros H. by contradiction H.
    + by rewrite (put_transactions_pay_fine_missing _ _ _ Ht).
Qed.

Lemma non_success_writes_nothing_witness :
  fst (post_transactions_borrow 0 5 example_request example_state)
  = example_state /\
  fst (post_payments_verify 5 example_verify example_state) = example_state.
Proof.
  destruct (non_success_writes_nothing 0 example_state 5)
    as (H1 & _ & H3 & _).
  split; [apply H1 | apply H3]; vm_compute; discriminate.
Defined.

(** X13. The return route is the exception: it answers 404 and leaves the
    state unchanged when the transaction is not stored; for a stored
    transaction it saves the transaction with the return fields written
    and then answers 500, so it never answers 200; and whatever it answers
    it touches no book, no payment and no other transaction. *)
Theorem return_answers_and_frame (s : State) (now : Z) (id : positive) :
  let r := post_transactions_return now id s in
  (transactions s !! id = None ->
   r = (s, {| code := 404; body := JsonError "Transaction not found" |})) /\
  (forall t, transactions s !! id = Some t ->
     code (snd r) = 500 /\
     transactions (fst r) !! id = Some (returned_doc now t) /\
     Transaction.returnDate (returned_doc now t) = Some now /\
     Transaction.status (returned_doc now t) <> borrowed) /\
  code (snd r) <> 200 /\
  books (fst r) = books s /\
  payments (fst r) = payments s /\
  (forall j, j <> id -> transactions (fst r) !! j = transactions s !! j).
Proof.
  cbv zeta. destruct (transactions s !! id) as [t |] eqn:Ht.
  - rewrite (post_transactions_return_response _ _ _ _ Ht).
    rewrite (post_transactions_return_state _ _ _ _ Ht). cbn.
    split; [discriminate |]. split.
    { intros t' [= <-]. split; [reflexivity |].
      split; [apply lookup_insert_eq |]. split; [reflexivity |].
      by destruct (0 <? days_late now (Transaction.dueDate t)). }
    split; [discriminate |]. split; [reflexivity |]. split; [reflexivity |].
    intros j Hj. by rewrite lookup_insert_ne.
  - rewrite (post_transactions_return_missing _ _ _ Ht). cbn.
    split; [reflexivity |]. split; [intros t' H; discriminate H |].
    split; [discriminate |]. by repeat split.
Qed.

Lemma return_answers_and_frame_witness :
  code (snd (post_transactions_return (JSDate.utc_midnight 2024 1 15)
               1%positive example_state)) = 500 /\
  Transaction.fineAmount
    <$> transactions
          (fst (post_transactions_return (JSDate.utc_midnight 2024 1 15)
                  1%positive example_state)) !! 1%positive = Some 25 /\
  post_transactions_return 5 2%positive example_state
  = (example_state,
     {| code := 404; body := JsonError "Transaction not found" |}).
Proof.
  destruct (return_answers_and_frame example_state
              (JSDate.utc_midnight 2024 1 15) 1%positive) as (_ & H & _).
  destruct (H example_loan) as (Hc & Hs & _); [reflexivity |].
  split; [exact Hc |]. split; [rewrite Hs; reflexivity |].
  apply (return_answers_and_frame example_state 5 2%positive). reflexivity.
Defined.

(** ** Fines *)

Lemma post_transactions_return_writes s now id t :
  transactions s !! id = Some t ->
  fst (post_transactions_return now id s)
  = with_transactions (insert id (returned_doc now t)) s.
Proof. intros Ht. exact (post_transactions_return_state s now id t Ht). Qed.

Lemma fine_bounds now due :
  0 <= fine now due /\
  (now < due + 86400000 <-> fine now due = 0) /\
  (due <= now -> fine now due * 86400000 <= 5 * (now - due)) /\
  5 * (now - due) < (fine now due + 5) * 86400000.
Proof.
  unfold fine, days_late.
  pose proof (Z.div_mod (now - due) 86400000 ltac:(lia)) as Hdm.
  pose proof (Z.mod_pos_bound (now - due) 86400000 ltac:(lia)) as Hm.
  destruct (Z.max_spec 0 ((now - due) / 86400000)) as [[H ->] | [H ->]];
    repeat split; intros; lia.
Qed.

Lemma fine_monotone now1 now2 due :
  now1 <= now2 -> fine now1 due <= fine now2 due.
Proof.
  intros H. unfold fine, days_late.
  assert ((now1 - due) / 86400000 <= (now2 - due) / 86400000)
    by (apply Z.div_le_mono; lia).
  lia.
Qed.

(** X14. The fine that a return writes is five units per full day elapsed
    since the due date: it is never negative, it is zero exactly when the
    book comes back less than 24 hours after the due date, it never exceeds
    five units per elapsed day and falls short of that by less than one
    day's charge, and a later return never gives a smaller fine. *)
Theorem fine_is_five_per_full_day (s : State) (id : positive)
    (t : Transaction.doc) (now1 now2 : Z) :
  transactions s !! id = Some t ->
  let due := Transaction.dueDate t in
  exists t1 t2,
    transactions (fst (post_transactions_return now1 id s)) !! id = Some t1 /\
    transactions (fst (post_transactions_return now2 id s)) !! id = Some t2 /\
    0 <= Transaction.fineAmount t1 /\
    (now1 < due + 86400000 <-> Transaction.fineAmount t1 = 0) /\
    (due <= now1 ->
     Transaction.fineAmount t1 * 86400000 <= 5 * (now1 - due)) /\
    5 * (now1 - due) < (Transaction.fineAmount t1 + 5) * 86400000 /\
    (now1 <= now2 -> Transaction.fineAmount t1 <= Transaction.fineAmount t2).
Proof.
  intros Ht due.
  rewrite !(post_transactions_return_writes _ _ _ _ Ht). cbn.
  rewrite !lookup_insert_eq. eexists _, _.
  split; [reflexivity |]. split; [reflexivity |]. cbn. fold due.
  destruct (fine_bounds now1 due) as (H1 & H2 & H3 & H4).
  repeat split; try assumption; try apply H2.
  apply fine_monotone.
Qed.

Lemma fine_is_five_per_full_day_witness :
  exists t1 t2,
    transactions
      (fst (post_transactions_return (JSDate.utc_midnight 2024 1 11 - 1)
              1%positive example_state)) !! 1%positive = Some t1 /\
    transactions
      (fst (post_transactions_return (JSDate.utc_midnight 2024 1 11)
              1%positive example_state)) !! 1%positive = Some t2 /\
    Transaction.fineAmount t1 = 0 /\
    Transaction.fineAmount t1 <= Transaction.fineAmount t2.
Proof.
  destruct (fine_is_five_per_full_day example_state 1%positive example_loan
              (JSDate.utc_midnight 2024 1 11 - 1)
              (JSDate.utc_midnight 2024 1 11))
    as (t1 & t2 & H1 & H2 & _ & Hz & _ & _ & Hm); [reflexivity |].
  exists t1, t2. split; [exact H1 |]. split; [exact H2 |]. split.
  - apply Hz. vm_compute. reflexivity.
  - apply Hm. vm_compute. discriminate.
Defined.

(** X15. The loan period is not validated: a valid request for a negative
    number of days is answered 200, and the loan it creates is late at
    once: returned at the very instant of the borrowing it gets as many
    days late as the period was negative, the matching fine, and the status
    returned_late. *)
Theorem negative_period_is_late_at_once (tz : Z) (s : State) (now : Z)
    (req : BorrowBody.t) (b : Book.doc) (d : Z) :
  books s !! BorrowBody.bookId req = Some b ->
  Book.available b = true ->
  valid_borrow_body now req ->
  BorrowBody.days req = Some d -> d < 0 ->
  let r1 := post_transactions_borrow tz now req s in
  let id := fresh (dom (transactions s)) in
  code (snd r1) = 200 /\
  exists t,
    transactions (fst (post_transactions_return now id (fst r1))) !! id
      = Some t /\
    Transaction.daysLate t = - d /\
    Transaction.fineAmount t = - d * 5 /\
    Transaction.status t = returned_late.
Proof.
  intros Hb Ha Hv Hd Hneg.
  destruct (post_transactions_borrow_available tz s now req b Hb Ha Hv)
    as (sid & nm & dp & _ & _ & _ & E).
  cbv zeta in *. rewrite E. cbn [fst snd code]. split; [reflexivity |].
  match goal with
  | |- context [post_transactions_return now ?i
                  (with_books ?f (with_transactions (insert ?i ?t) s))] =>
      rewrite (post_transactions_return_writes
                 (with_books f (with_transactions (insert i t) s)) now i t)
        by apply lookup_insert_eq
  end.
  cbn. rewrite lookup_insert_eq. eexists. split; [reflexivity |].
  cbn. unfold loan_days. rewrite Hd. cbn.
  assert (Hdl : days_late now (now + d * JSDate.msPerDay) = - d).
  { unfold days_late.
    replace (now - (now + d * JSDate.msPerDay)) with ((- d) * 86400000)
      by (unfold JSDate.msPerDay; lia).
    rewrite Z.div_mul by lia. lia. }
  unfold fine. rewrite Hdl.
  split; [reflexivity |]. split; [reflexivity |].
  destruct (Z.ltb_spec 0 (- d)); [reflexivity | lia].
Qed.

Lemma negative_period_is_late_at_once_witness :
  exists t,
    transactions
      (fst (post_transactions_return 5 1%positive
              (fst (post_transactions_borrow 0 5 example_backdated_request
                      example_shelf)))) !! 1%positive = Some t /\
    Transaction.daysLate t = 3 /\ Transaction.fineAmount t = 15.
Proof.
  destruct (negative_period_is_late_at_once 0 example_shelf 5
              example_backdated_request
              (Book.set_available example_book true) (-3))
    as (_ & t & Ht & Hd & Hf & _).
  - reflexivity.
  - reflexivity.
  - repeat split; try reflexivity.
    unfold representable. apply Z.leb_le. vm_compute. reflexivity.
  - reflexivity.
  - lia.
  - exists t. split; [exact Ht |]. split; assumption.
Defined.

(** ** Repeating and combining requests *)

Lemma with_transactions_insert_twice s id (x y : Transaction.doc) :
  with_transactions (insert id x) (with_transactions (insert id y) s)
  = with_transactions (insert id x) s.
Proof. unfold with_transactions. cbn. by rewrite insert_insert_eq. Qed.

Lemma returned_doc_twice now1 now2 t :
  returned_doc now2 (returned_doc now1 t) = returned_doc now2 t.
Proof. reflexivity. Qed.

Lemma set_finePaid_twice now1 now2 t :
  Transaction.set_finePaid (Transaction.set_finePaid t now1) now2
  = Transaction.set_finePaid t now2.
Proof. reflexivity. Qed.

Lemma post_payments_verify_twice s now1 now2 req1 req2 :
  VerifyBody.paymentId req1 = VerifyBody.paymentId req2 ->
  fst (post_payments_verify now2 req2 (fst (post_payments_verify now1 req1 s)))
  = fst (post_payments_verify now2 req2 s).
Proof.
  intros Hid.
  destruct (payments s !! VerifyBody.paymentId req1) as [p |] eqn:Hp.
  - rewrite (post_payments_verify_found s now1 req1 p Hp). cbv zeta. cbn [fst].
    rewrite Hid in Hp |- *.
    rewrite (post_payments_verify_found s now2 req2 p Hp). cbv zeta. cbn [fst].
    destruct (transactions s !! Payment.transactionId p) as [t |] eqn:Ht.
    + match goal with
      | |- fst (post_payments_verify now2 req2 ?s1) = _ =>
          rewrite (post_payments_verify_found s1 now2 req2
                     (Payment.set_verified p
                        (if truthy (VerifyBody.utrNumber req1)
                         then default EmptyString (VerifyBody.utrNumber req1)
                         else "UTR" +:+ pretty now1) now1))
            by apply lookup_insert_eq
      end.
      cbv zeta. cbn. rewrite lookup_insert_eq.
      unfold with_transactions, with_payments. cbn.
      by rewrite !insert_insert_eq.
    + match goal with
      | |- fst (post_payments_verify now2 req2 ?s1) = _ =>
          rewrite (post_payments_verify_found s1 now2 req2
                     (Payment.set_verified p
                        (if truthy (VerifyBody.utrNumber req1)
                         then default EmptyString (VerifyBody.utrNumber req1)
                         else "UTR" +:+ pretty now1) now1))
            by apply lookup_insert_eq
      end.
      cbv zeta. cbn. rewrite Ht.
      unfold with_payments. cbn. by rewrite insert_insert_eq.
  - rewrite (post_payments_verify_missing s now1 req1 Hp). reflexivity.
Qed.

(** X16. The last call wins: a return served after another return of the
    same transaction, a direct settlement served after another one, and a
    verification served after another verification of the same payment
    lead to the state that the last call alone leads to; nothing of the
    first call survives. *)
Theorem last_call_wins (s : State) (now1 now2 : Z) (id : positive) :
  fst (post_transactions_return now2 id
         (fst (post_transactions_return now1 id s)))
  = fst (post_transactions_return now2 id s) /\
  fst (put_transactions_pay_fine now2 id
         (fst (put_transactions_pay_fine now1 id s)))
  = fst (put_transactions_pay_fine now2 id s) /\
  (forall utr1 utr2,
     fst (post_payments_verify now2
            {| VerifyBody.paymentId := id; VerifyBody.utrNumber := utr2 |}
            (fst (post_payments_verify now1
                    {| VerifyBody.paymentId := id;
                       VerifyBody.utrNumber := utr1 |} s)))
     = fst (post_payments_verify now2
              {| VerifyBody.paymentId := id; VerifyBody.utrNumber := utr2 |}
              s)).
Proof.
  split; [| split; [| intros; by apply post_payments_verify_twice]].
  - destruct (transactions s !! id) as [t |] eqn:Ht.
    + rewrite (post_transactions_return_writes s now1 id t Ht).
      rewrite (post_transactions_return_writes _ now2 id (returned_doc now1 t))
        by apply lookup_insert_eq.
      rewrite (post_transactions_return_writes s now2 id t Ht).
      rewrite with_transactions_insert_twice. by rewrite returned_doc_twice.
    + rewrite (post_transactions_return_missing s now1 id Ht). cbn [fst].
      reflexivity.
  - destruct (transactions s !! id) as [t |] eqn:Ht.
    + rewrite (put_transactions_pay_fine_found s now1 id t Ht). cbn [fst].
      rewrite (put_transactions_pay_fine_found _ now2 id
                 (Transaction.set_finePaid t now1))
        by apply lookup_insert_eq.
      rewrite (put_transactions_pay_fine_found s now2 id t Ht). cbn [fst].
      rewrite with_transactions_insert_twice. by rewrite set_finePaid_twice.
    + rewrite (put_transactions_pay_fine_missing s now1 id Ht). cbn [fst].
      reflexivity.
Qed.

(** X17. The two settlement routes agree on the ledger: verifying a stored
    payment leaves exactly the transactions that settling the fine of the
    payment's transaction directly, at the same instant, leaves. *)
Theorem verify_settles_like_pay_fine (s : State) (now : Z)
    (req : VerifyBody.t) (p : Payment.doc) :
  payments s !! VerifyBody.paymentId req = Some p ->
  transactions (fst (post_payments_verify now req s))
  = transactions
      (fst (put_transactions_pay_fine now (Payment.transactionId p) s)).
Proof.
  intros Hp. rewrite (post_payments_verify_found _ _ _ _ Hp). cbv zeta.
  destruct (transactions s !! Payment.transactionId p) as [t |] eqn:Ht.
  - by rewrite (put_transactions_pay_fine_found _ _ _ _ Ht).
  - by rewrite (put_transactions_pay_fine_missing _ _ _ Ht).
Qed.

Lemma verify_settles_like_pay_fine_witness :
  transactions (fst (post_payments_verify 7 example_verify example_billed))
  = transactions (fst (put_transactions_pay_fine 7 1%positive example_billed)).
Proof.
  apply (verify_settles_like_pay_fine example_billed 7 example_verify
           example_payment).
  reflexivity.
Defined.

(** X18. Creating a payment and verifying it settles the fine whatever the
    amount: for a stored transaction and a request that supplies the
    student fields and any amount at all, the payment created is found by
    the verification, ends completed with that amount, and the transaction
    ends with finePaid = true. *)
Theorem create_then_verify_settles (s : State) (now1 now2 : Z)
    (req : CreateUpiBody.t) (t : Transaction.doc) (amt : Z)
    (utr : option string) :
  transactions s !! CreateUpiBody.transactionId req = Some t ->
  valid_payment_body req ->
  CreateUpiBody.amount req = Some amt ->
  let s1 := fst (post_payments_create_upi now1 req s) in
  let id := fresh (dom (payments s)) in
  let r2 := post_payments_verify now2
              {| VerifyBody.paymentId := id; VerifyBody.utrNumber := utr |}
              s1 in
  code (snd r2) = 200 /\
  (exists p, payments (fst r2) !! id = Some p /\
             Payment.paymentStatus p = completed /\
             Payment.amount p = amt /\
             Payment.paymentDate p = Some now2) /\
  transactions (fst r2) !! CreateUpiBody.transactionId req
  = Some (Transaction.set_finePaid t now2).
Proof.
  intros Ht Hv Hamt.
  destruct (post_payments_create_upi_valid s now1 req t Ht Hv)
    as (sid & nm & amt' & _ & _ & Hamt' & E).
  assert (amt' = amt) as -> by congruence.
  cbv zeta in *. rewrite E. cbn [fst].
  match goal with
  | |- context [post_payments_verify now2 ?r (with_payments (insert ?i ?p) s)] =>
      rewrite (post_payments_verify_found
                 (with_payments (insert i p) s) now2 r p)
        by apply lookup_insert_eq
  end.
  cbn. rewrite Ht. cbn. split; [reflexivity |]. split.
  - eexists. split; [apply lookup_insert_eq |]. by repeat split.
  - apply lookup_insert_eq.
Qed.

Lemma create_then_verify_settles_witness :
  transactions
    (fst (post_payments_verify 9
            {| VerifyBody.paymentId := 1%positive;
               VerifyBody.utrNumber := Some "AXIS42" |}
            (fst (post_payments_create_upi 8 example_bill example_state))))
    !! 1%positive
  = Some (Transaction.set_finePaid example_loan 9).
Proof.
  apply (create_then_verify_settles example_state 8 9 example_bill
           example_loan 25 (Some "AXIS42")).
  - reflexivity.
  - repeat split; try reflexivity. exists 25. reflexivity.
  - reflexivity.
Defined.

(** ** The listings *)

(** X19. The book listing: while the database is not connected it answers
    503; otherwise it answers 200 with every stored book exactly once and
    a count equal to the number of stored books, and a book request that is
    answered 201 makes the next listing count exactly one more. *)
Theorem get_books_lists_catalogue (s : State) :
  (isDBConnected s = false ->
   get_books s
   = {| list_code := 503;
        list_body := ListError "Database connecting, please try again" |}) /\
  (isDBConnected s = true ->
   exists l,
     get_books s
     = {| list_code := 200;
          list_body := ListBooks (Z.of_nat (size (books s))) l |} /\
     NoDup l /\
     (forall i b, (i, b) ∈ l <-> books s !! i = Some b) /\
     forall now req,
       code (snd (post_books now req s)) = 201 ->
       exists l',
         get_books (fst (post_books now req s))
         = {| list_code := 200;
              list_body := ListBooks (Z.of_nat (size (books s)) + 1) l' |}).
Proof.
  unfold get_books. split; intros Hc; rewrite Hc; cbn [negb]; [reflexivity |].
  exists (map_to_list (books s)). rewrite length_map_to_list.
  split; [reflexivity |]. split; [apply NoDup_map_to_list |].
  split; [intros i b; apply elem_of_map_to_list |].
  intros now req H201.
  destruct (post_books_created s now req H201) as (id & bk & Hid & _ & ->).
  cbn. rewrite Hc. cbn [negb]. eexists.
  rewrite length_map_to_list, (map_size_insert_None _ _ _ Hid).
  rewrite Nat2Z.inj_succ. unfold Z.succ. reflexivity.
Qed.

Lemma get_books_lists_catalogue_witness :
  exists l l',
    get_books example_state
    = {| list_code := 200; list_body := ListBooks 1 l |} /\
    get_books (fst (post_books 5 example_new_book example_state))
    = {| list_code := 200; list_body := ListBooks 2 l' |}.
Proof.
  destruct (get_books_lists_catalogue example_state) as [_ H].
  destruct H as (l & E & _ & _ & Hpost); [reflexivity |].
  destruct (Hpost 5 example_new_book) as (l' & E'); [reflexivity |].
  exists l, l'. split; [exact E | exact E'].
Defined.

Global Instance newer_first_total : Total newer_first.
Proof. intros x y. unfold newer_first. lia. Qed.

Global Instance newer_first_transitive : Transitive newer_first.
Proof. intros x y z. unfold newer_first. lia. Qed.

Lemma get_transactions_mem (s : State) i t bk :
  In (i, t, bk)
     (map (fun it => (it, books s !! Transaction.book (snd it)))
        (merge_sort newer_first (map_to_list (transactions s)))) <->
  transactions s !! i = Some t /\ bk = books s !! Transaction.book t.
Proof.
  rewrite in_map_iff. split.
  - intros ([i' t'] & [= -> -> <-] & Hin). split; [| reflexivity].
    apply elem_of_map_to_list.
    rewrite <- (merge_sort_Permutation newer_first).
    by apply list_elem_of_In.
  - intros [Hl ->]. exists (i, t). split; [reflexivity |].
    apply list_elem_of_In. rewrite (merge_sort_Permutation newer_first).
    by apply elem_of_map_to_list.
Qed.

(** X20. The transaction listing always answers 200 with every stored
    transaction exactly once, newest first: each entry was created no
    earlier than every entry after it, and each carries the stored book
    that it names (none if that book is not stored). *)
Theorem get_transactions_newest_first (s : State) :
  exists l,
    get_transactions s
    = {| list_code := 200; list_body := ListTransactions l |} /\
    map fst l ≡ₚ map_to_list (transactions s) /\
    StronglySorted newer_first (map fst l) /\
    (forall i t bk, (i, t, bk) ∈ l <->
       transactions s !! i = Some t /\
       bk = books s !! Transaction.book t).
Proof.
  unfold get_transactions. cbv zeta. eexists. split; [reflexivity |].
  rewrite map_map. cbn. rewrite map_id.
  split; [apply merge_sort_Permutation |].
  split; [apply StronglySorted_merge_sort; apply _ |].
  intros i t bk. rewrite list_elem_of_In. apply get_transactions_mem.
Qed.

Lemma post_transactions_borrow_success_state tz s now req :
  code (snd (post_transactions_borrow tz now req s)) = 200 ->
  exists b t,
    books s !! BorrowBody.bookId req = Some b /\
    Book.available b = true /\
    Transaction.book t = BorrowBody.bookId req /\
    Transaction.status t = borrowed /\
    fst (post_transactions_borrow tz now req s)
    = with_books (insert (BorrowBody.bookId req) (Book.set_available b false))
        (with_transactions (insert (fresh (dom (transactions s))) t) s).
Proof.
  destruct (books s !! BorrowBody.bookId req) as [b |] eqn:Hb.
  2: { rewrite (post_transactions_borrow_missing _ _ _ _ Hb). discriminate. }
  destruct (Book.available b) eqn:Ha.
  2: { rewrite (post_transactions_borrow_unavailable _ _ _ _ _ Hb Ha).
       discriminate. }
  unfold post_transactions_borrow, Transaction_insert, Book_available_minus.
  unfold_monad. rewrite Hb, Ha. cbn.
  destruct (Transaction.create now _ _ _ _ _ _) as [e | t] eqn:Hc; cbn;
    [discriminate |].
  change (1 - 1) with 0. cbn. intros _.
  destruct (Transaction_create_inr _ _ _ _ _ _ _ _ Hc)
    as (Hbook & _ & _ & _ & Hst & _).
  exists b, t. by repeat split.
Qed.

(** X25. A loan shows up in the listing: after a borrow request that is
    answered 200, the transaction listing contains the new transaction
    together with its book, and that book is shown unavailable. *)
Theorem new_loan_is_listed (tz : Z) (s : State) (now : Z)
    (req : BorrowBody.t) :
  code (snd (post_transactions_borrow tz now req s)) = 200 ->
  exists l id t bk,
    get_transactions (fst (post_transactions_borrow tz now req s))
    = {| list_code := 200; list_body := ListTransactions l |} /\
    (id, t, Some bk) ∈ l /\
    transactions s !! id = None /\
    Transaction.book t = BorrowBody.bookId req /\
    Transaction.status t = borrowed /\
    Book.available bk = false.
Proof.
  intros H200.
  destruct (post_transactions_borrow_success_state tz s now req H200)
    as (b & t & Hb & Ha & Hbook & Hst & E).
  eexists _, (fresh (dom (transactions s))), t, (Book.set_available b false).
  split; [reflexivity |]. split.
  - apply list_elem_of_In, get_transactions_mem. rewrite E. cbn.
    split; [apply lookup_insert_eq |].
    rewrite Hbook. by rewrite lookup_insert_eq.
  - split; [apply not_elem_of_dom, is_fresh |]. by repeat split.
Qed.

Lemma new_loan_is_listed_witness :
  exists l id t bk,
    get_transactions
      (fst (post_transactions_borrow 0 5 example_request example_shelf))
    = {| list_code := 200; list_body := ListTransactions l |} /\
    (id, t, Some bk) ∈ l /\ Book.available bk = false.
Proof.
  destruct (new_loan_is_listed 0 example_shelf 5 example_request)
    as (l & id & t & bk & E & Hin & _ & _ & _ & Ha); [reflexivity |].
  exists l, id, t, bk. split; [exact E |]. split; [exact Hin | exact Ha].
Defined.

(** ** The connection flag and the time zone *)

Lemma flag_blind_ret {A} (a : A) : flag_blind (ret a).
Proof. by intros c s. Qed.

Lemma flag_blind_throw {A} (e : Exn) : flag_blind (@throw A e).
Proof. by intros c s. Qed.

Lemma flag_blind_lift {A} (r : Exn + A) : flag_blind (lift r).
Proof. destruct r; [apply flag_blind_throw | apply flag_blind_ret]. Qed.

Lemma flag_blind_gets {A} (f : State -> A) :
  (forall c s, f (with_connected c s) = f s) -> flag_blind (gets f).
Proof. intros H c s. unfold gets. cbn. by rewrite H. Qed.

Lemma flag_blind_modify (f : State -> State) :
  (forall c s, f (with_connected c s) = with_connected c (f s)) ->
  flag_blind (modify f).
Proof. intros H c s. unfold modify. cbn. by rewrite H. Qed.

Lemma flag_blind_bind {A B} (m : M A) (k : A -> M B) :
  flag_blind m -> (forall a, flag_blind (k a)) -> flag_blind (bind m k).
Proof.
  intros Hm Hk c s. unfold bind. rewrite Hm.
  destruct (m s) as [s1 [e | a]]; cbn; [reflexivity |].
  apply Hk.
Qed.

Lemma flag_blind_try_catch (m : M Response) c s :
  flag_blind m ->
  try_catch m (with_connected c s)
  = (with_connected c (fst (try_catch m s)), snd (try_catch m s)).
Proof.
  intros Hm. unfold try_catch. rewrite Hm.
  by destruct (m s) as [s1 [e | r]].
Qed.

Create HintDb flag_blind.

#[export] Hint Resolve flag_blind_ret flag_blind_throw flag_blind_lift
  : flag_blind.

Ltac flag_blind_step :=
  first
    [ apply flag_blind_bind; [| intros ?]
    | apply flag_blind_ret
    | apply flag_blind_throw
    | apply flag_blind_lift
    | apply flag_blind_gets; reflexivity
    | apply flag_blind_modify; reflexivity
    | match goal with
      | |- flag_blind (match ?x with _ => _ end) => destruct x
      end ].

Ltac flag_blind_solve :=
  unfold Book_findByIdAndUpdate_inc_available,
    Transaction_findByIdAndUpdate_finePaid,
    Transaction_insert, Payment_insert, Book_available_minus;
  unfold respond, Book_findById, Transaction_findById, Payment_findById,
    Transaction_save, Payment_save, Book_save;
  repeat flag_blind_step.

(** X21. Only the book routes look at the connection flag: borrowing,
    returning, creating and verifying a payment and settling a fine give
    the same answer and write the same data whether the flag says
    connected or not, and leave the flag as it is. *)
Theorem transaction_routes_ignore_connection (tz : Z) (now : Z) (c : bool)
    (s : State) :
  (forall req,
     post_transactions_borrow tz now req (with_connected c s)
     = (with_connected c (fst (post_transactions_borrow tz now req s)),
        snd (post_transactions_borrow tz now req s))) /\
  (forall id,
     post_transactions_return now id (with_connected c s)
     = (with_connected c (fst (post_transactions_return now id s)),
        snd (post_transactions_return now id s))) /\
  (forall req,
     post_payments_create_upi now req (with_connected c s)
     = (with_connected c (fst (post_payments_create_upi now req s)),
        snd (post_payments_create_upi now req s))) /\
  (forall req,
     post_payments_verify now req (with_connected c s)
     = (with_connected c (fst (post_payments_verify now req s)),
        snd (post_payments_verify now req s))) /\
  (forall id,
     put_transactions_pay_fine now id (with_connected c s)
     = (with_connected c (fst (put_transactions_pay_fine now id s)),
        snd (put_transactions_pay_fine now id s))).
Proof.
  repeat split; intros;
    [ unfold post_transactions_borrow
    | unfold post_transactions_return
    | unfold post_payments_create_upi
    | unfold post_payments_verify
    | unfold put_transactions_pay_fine ];
    apply flag_blind_try_catch; cbv zeta; flag_blind_solve.
Qed.

(** X22. The due date does not depend on the server's time zone: although
    the borrow route computes it with the local-time [getDate] and
    [setDate], two servers with different (fixed) offsets answer every
    borrow request alike and write the same data. *)
Theorem borrow_is_time_zone_independent (tz1 tz2 : Z) (now : Z)
    (req : BorrowBody.t) (s : State) :
  post_transactions_borrow tz1 now req s
  = post_transactions_borrow tz2 now req s.
Proof.
  unfold post_transactions_borrow.
  by rewrite !JSDateFacts.setDate_getDate.
Qed.

(** ** Missing documents, and books that were lent *)

(** X23. 404 is answered exactly when the document that the request names
    is not stored: the book for a borrow request, the transaction for a
    return, a payment creation and a direct settlement, the payment for a
    verification. *)
Theorem not_found_iff_missing (tz : Z) (s : State) (now : Z) :
  (forall req,
     code (snd (post_transactions_borrow tz now req s)) = 404 <->
     books s !! BorrowBody.bookId req = None) /\
  (forall id,
     code (snd (post_transactions_return now id s)) = 404 <->
     transactions s !! id = None) /\
  (forall req,
     code (snd (post_payments_create_upi now req s)) = 404 <->
     transactions s !! CreateUpiBody.transactionId req = None) /\
  (forall req,
     code (snd (post_payments_verify now req s)) = 404 <->
     payments s !! VerifyBody.paymentId req = None) /\
  (forall id,
     code (snd (put_transactions_pay_fine now id s)) = 404 <->
     transactions s !! id = None).
Proof.
  split; [| split; [| split; [| split]]].
  - intros req.
    destruct (books s !! BorrowBody.bookId req) as [b |] eqn:Hb.
    2: { by rewrite (post_transactions_borrow_missing _ _ _ _ Hb). }
    split; [| discriminate]. 
    destruct (Book.available b) eqn:Ha.
    2: { by rewrite (post_transactions_borrow_unavailable _ _ _ _ _ Hb Ha). }
    unfold post_transactions_borrow, Transaction_insert, Book_available_minus.
    unfold_monad. rewrite Hb, Ha. cbn.
    destruct (Transaction.create now _ _ _ _ _ _) as [e | t]; cbn;
      [discriminate |].
    change (1 - 1) with 0. cbn. discriminate.
  - intros id. destruct (transactions s !! id) as [t |] eqn:Ht.
    + rewrite (post_transactions_return_response _ _ _ _ Ht).
      split; discriminate.
    + by rewrite (post_transactions_return_missing _ _ _ Ht).
  - intros req. unfold post_payments_create_upi, Payment_insert. unfold_monad.
    destruct (transactions s !! CreateUpiBody.transactionId req); cbn;
      [| done].
    destruct (Payment.create now _ _ _ _ _); cbn; split; discriminate.
  - intros req.
    destruct (payments s !! VerifyBody.paymentId req) as [p |] eqn:Hp.
    + rewrite (post_payments_verify_found _ _ _ _ Hp). cbn.
      split; discriminate.
    + by rewrite (post_payments_verify_missing _ _ _ Hp).
  - intros id. destruct (transactions s !! id) as [t |] eqn:Ht.
    + rewrite (put_transactions_pay_fine_found _ _ _ _ Ht). cbn.
      split; discriminate.
    + by rewrite (put_transactions_pay_fine_missing _ _ _ Ht).
Qed.

(** X24. Among requests served one after another (none starts before the
    previous one has answered) a book is lent at most once: after a borrow
    request that is answered 200, every borrow request for that book that
    is served later is answered 400 "Book not available" and changes
    nothing, whatever was served in between, returns of the loan
    included. *)
Theorem lent_book_is_never_lent_again (tz : Z) (s : State) (now : Z)
    (req : BorrowBody.t) (evs : list (Z * Request)) (now2 : Z)
    (req2 : BorrowBody.t) :
  code (snd (post_transactions_borrow tz now req s)) = 200 ->
  BorrowBody.bookId req2 = BorrowBody.bookId req ->
  let s' := run tz (fst (post_transactions_borrow tz now req s)) evs in
  post_transactions_borrow tz now2 req2 s'
  = (s', {| code := 400; body := JsonError "Book not available" |}).
Proof.
  intros H200 Hid. cbv zeta.
  destruct (post_transactions_borrow_success tz s now req H200)
    as (b & _ & _ & Hb').
  eapply post_transactions_borrow_unavailable.
  - rewrite Hid. apply run_unavailable; [exact Hb' | reflexivity].
  - reflexivity.
Qed.

Lemma lent_book_is_never_lent_again_witness :
  let s' := run 0 (fst (post_transactions_borrow 0 5 example_request
                          example_shelf))
              [(6, Return 1%positive); (7, Return 1%positive)] in
  post_transactions_borrow 0 8 example_request s'
  = (s', {| code := 400; body := JsonError "Book not available" |}).
Proof.
  apply (lent_book_is_never_lent_again 0 example_shelf 5 example_request
           [(6, Return 1%positive); (7, Return 1%positive)] 8
           example_request); reflexivity.
Defined.

(** ** Borrow requests that overlap *)

(** Served without interruption, the staged borrow call is the handler. *)
Lemma borrow_alone_is_handler tz now req s :
  borrow_alone tz now req s
  = (fst (post_transactions_borrow tz now req s),
     Answered (snd (post_transactions_borrow tz now req s))).
Proof.
  unfold borrow_alone. cbv zeta.
  destruct (books s !! BorrowBody.bookId req) as [b |] eqn:Hb.
  2: { rewrite (post_transactions_borrow_missing _ _ _ _ Hb).
       cbn. by rewrite Hb. }
  destruct (Book.available b) eqn:Ha.
  2: { rewrite (post_transactions_borrow_unavailable _ _ _ _ _ Hb Ha).
       cbn. by rewrite Hb, Ha. }
  unfold post_transactions_borrow, Transaction_insert, Book_available_minus.
  unfold_monad. cbn [borrow_resume]. rewrite Hb, Ha. cbn.
  destruct (Transaction.create now _ _ _ _ _ _) as [e | t] eqn:Hc; cbn;
    [reflexivity |].
  rewrite Ha. cbn. change (1 - 1) with 0. cbn. reflexivity.
Qed.

(** C10, as stated, fails: two borrow requests for the same available book
    that overlap (each is resumed in turn at its [await]s) are both
    answered 200 although no return is served, and leave two outstanding
    loans of the one book. *)
Lemma overlapping_borrows_counterexample :
  let now := JSDate.utc_midnight 2024 1 2 in
  let out :=
    overlap 0 [true; false; true; false; true; false; true; false]
      (now, example_request, AtFindById)
      (now + 1, example_request_2, AtFindById) example_shelf in
  answered_code (snd (fst out)) = Some 200 /\
  answered_code (snd out) = Some 200 /\
  outstanding (fst (fst out)) 1%positive 1%positive /\
  outstanding (fst (fst out)) 1%positive 2%positive /\
  ~ at_most_one_loan (fst (fst out)).
Proof.
  cbv zeta.
  set (out := overlap 0 _ _ _ _).
  assert (H1 : outstanding (fst (fst out)) 1%positive 1%positive).
  { destruct (transactions (fst (fst out)) !! 1%positive) as [t |] eqn:E;
      vm_compute in E; [| discriminate E].
    injection E as <-. eexists. split; [vm_compute; reflexivity |].
    split; reflexivity. }
  assert (H2 : outstanding (fst (fst out)) 1%positive 2%positive).
  { destruct (transactions (fst (fst out)) !! 2%positive) as [t |] eqn:E;
      vm_compute in E; [| discriminate E].
    injection E as <-. eexists. split; [vm_compute; reflexivity |].
    split; reflexivity. }
  split; [vm_compute; reflexivity |]. split; [vm_compute; reflexivity |].
  split; [exact H1 |]. split; [exact H2 |].
  intros H. specialize (H 1%positive 1%positive 2%positive H1 H2).
  discriminate H.
Qed.
